(** * Raider plugins: value extraction and composition

    A shallow embedding of [src/raider/plugins.py].  Plugin objects live in
    an object store and are named by references, because the closures
    built by [Header.from_plugin], [Cookie.from_plugin] and the
    composition plugins read another plugin's [value] at call time.
    A computation threads the store and the log, and ends in a returned
    value or in a raised Python exception.

    The libraries the module calls ([re], [json], [bs4]) and the helpers
    imported from [raider.utils] are not part of the file; they are the
    fields of the class [Libs], over which every definition is
    parametrised.  [Command], which runs a process, and the [__str__]
    methods are left out: no property below depends on them. *)

From stdpp Require Import gmap strings list.
From Stdlib Require Import ZArith DecimalString Ascii.

Set Warnings "-register-all".

(** ** Python primitives used by the source *)

Module Py.

(** Truthiness of an [Optional[str]]: [None] and the empty string are
    false, as in [if output:] or [plugin.value if plugin.value else None]. *)
Definition truthy (v : option string) : bool :=
  match v with
  | Some s => negb (String.eqb s "")
  | None => false
  end.

(** [str(v)] for an [Optional[str]]. *)
Definition str (v : option string) : string :=
  match v with
  | Some s => s
  | None => "None"
  end.

(** [seq[i]] for a tuple or a list: a negative index counts from the end,
    [None] stands for IndexError. *)
Definition index {A : Type} (l : list A) (i : Z) : option A :=
  let n := Z.of_nat (length l) in
  if decide (0 ≤ i < n)%Z then l !! Z.to_nat i
  else if decide (- n ≤ i < 0)%Z then l !! Z.to_nat (n + i)
  else None.

Definition mem_ascii (c : ascii) (cs : list ascii) : bool :=
  existsb (Ascii.eqb c) cs.

Fixpoint lstrip (chars cs : list ascii) : list ascii :=
  match cs with
  | c :: cs' => if mem_ascii c chars then lstrip chars cs' else cs
  | [] => []
  end.

(** [s.strip(chars)]. *)
Definition strip (chars s : string) : string :=
  let set := String.list_ascii_of_string chars in
  String.string_of_list_ascii
    (rev (lstrip set (rev (lstrip set (String.list_ascii_of_string s))))).

(** [s.startswith(prefix)]. *)
Definition startswith (s pre : string) : bool := String.prefix pre s.

(** [sub in s] for two strings. *)
Definition contains (s sub : string) : bool :=
  match String.index 0 sub s with
  | Some _ => true
  | None => false
  end.

Definition is_digit (c : ascii) : bool :=
  let n := nat_of_ascii c in (48 <=? n)%nat && (n <=? 57)%nat.

Definition digit_val (c : ascii) : Z := Z.of_nat (nat_of_ascii c - 48).

(** Decimal digits, single underscores allowed between two digits. *)
Fixpoint digits (acc : Z) (after_digit : bool) (cs : list ascii) : option Z :=
  match cs with
  | [] => if after_digit then Some acc else None
  | c :: cs' =>
      if is_digit c then digits (10 * acc + digit_val c)%Z true cs'
      else if Ascii.eqb c "_" then
        (if after_digit then digits acc false cs' else None)
      else None
  end.

(** The code points below 256 that [int()] skips around a number: tab to
    carriage return, the space, and the two spaces outside ASCII, next
    line (133) and no-break space (160).  The separators 28 to 31, which
    [str.strip()] removes, are no white space for [int()]. *)
Definition whitespace : string :=
  String (ascii_of_nat 32) (String (ascii_of_nat 9) (String (ascii_of_nat 10)
  (String (ascii_of_nat 11) (String (ascii_of_nat 12) (String (ascii_of_nat 13)
  (String (ascii_of_nat 133) (String (ascii_of_nat 160) EmptyString))))))).

(** [int(s)] for a string, base 10; [None] stands for ValueError.  Below
    256 the decimal digits are the ASCII ones. *)
Definition int (s : string) : option Z :=
  match String.list_ascii_of_string (strip whitespace s) with
  | c :: ds =>
      if Ascii.eqb c "-" then Z.opp <$> digits 0 false ds
      else if Ascii.eqb c "+" then digits 0 false ds
      else digits 0 false (c :: ds)
  | [] => None
  end.

(** [str(n)] for an integer. *)
Definition str_int (n : Z) : string := NilZero.string_of_int (Z.to_int n).

(** The capital letters below 256: A to Z, and the Latin-1 capitals 192 to
    222 without the multiplication sign (215). *)
Definition is_upper (c : ascii) : bool :=
  let n := nat_of_ascii c in
  ((65 <=? n)%nat && (n <=? 90)%nat) ||
  ((192 <=? n)%nat && (n <=? 222)%nat && negb (n =? 215)%nat).

Definition lower_char (c : ascii) : ascii :=
  if is_upper c then ascii_of_nat (nat_of_ascii c + 32) else c.

(** [s.lower()]. *)
Definition lower (s : string) : string :=
  String.string_of_list_ascii (map lower_char (String.list_ascii_of_string s)).

(** [sep.join(parts)]. *)
Fixpoint join (sep : string) (parts : list string) : string :=
  match parts with
  | [] => ""
  | [p] => p
  | p :: ps => p +:+ sep +:+ join sep ps
  end.

End Py.

(** ** The values [json.loads] returns

    A string is a sequence of code points below 256.  A float is kept as
    the text [repr] gives it, which is all the source does with one
    ([str(temp)]).  An object is an association list in insertion order,
    the order in which a Python [dict] prints. *)

Module JsonData.

Inductive t :=
| JNull
| JBool (b : bool)
| JInt (n : Z)
| JFloat (repr : string)
| JString (s : string)
| JArray (items : list t)
| JObject (members : list (string * t)).

Definition lookup (k : string) (members : list (string * t)) : option t :=
  snd <$> find (fun kv => String.eqb (fst kv) k) members.

Definition is_string (k : string) (j : t) : bool :=
  match j with
  | JString s => String.eqb s k
  | _ => false
  end.

(** [len(temp)]; [None] stands for TypeError. *)
Definition len (temp : t) : option Z :=
  match temp with
  | JArray items => Some (Z.of_nat (length items))
  | JObject members => Some (Z.of_nat (length members))
  | JString s => Some (Z.of_nat (String.length s))
  | _ => None
  end.

Definition hex_digit (n : nat) : ascii :=
  if (n <? 10)%nat then ascii_of_nat (48 + n) else ascii_of_nat (87 + n).

Definition hex2 (c : ascii) : string :=
  let n := nat_of_ascii c in
  String (hex_digit (n / 16)) (String (hex_digit (n mod 16)) EmptyString).

Definition backslash : ascii := ascii_of_nat 92.
Definition squote : ascii := ascii_of_nat 39.
Definition dquote : ascii := ascii_of_nat 34.

Definition has (c : ascii) (s : string) : bool :=
  Py.mem_ascii c (String.list_ascii_of_string s).

(** One character of [repr(s)], inside the quotes [q]. *)
Definition repr_char (q c : ascii) : string :=
  let n := nat_of_ascii c in
  if Ascii.eqb c q || Ascii.eqb c backslash then String backslash (String c "")
  else if (n =? 9)%nat then String backslash "t"
  else if (n =? 10)%nat then String backslash "n"
  else if (n =? 13)%nat then String backslash "r"
  else if (n <? 32)%nat || ((127 <=? n)%nat && (n <=? 160)%nat) || (n =? 173)%nat
    then String backslash ("x" +:+ hex2 c)
  else String c "".

(** [repr(s)] for a string: single quotes, unless the string holds a
    single quote and no double quote. *)
Definition repr_str (s : string) : string :=
  let q := if has squote s && negb (has dquote s) then dquote else squote in
  String q (String.concat "" (map (repr_char q) (String.list_ascii_of_string s)))
    +:+ String q "".

(** [repr(j)], the form a value takes inside a printed list or dict. *)
Fixpoint repr (j : t) : string :=
  match j with
  | JNull => "None"
  | JBool true => "True"
  | JBool false => "False"
  | JInt n => Py.str_int n
  | JFloat r => r
  | JString s => repr_str s
  | JArray items => "[" +:+ Py.join ", " (map repr items) +:+ "]"
  | JObject members =>
      "{" +:+ Py.join ", "
                (map (fun kv => repr_str (fst kv) +:+ ": " +:+ repr (snd kv)) members)
          +:+ "}"
  end.

(** [str(j)]: a string prints as itself, anything else as its [repr]. *)
Definition str (j : t) : string :=
  match j with
  | JString s => s
  | _ => repr j
  end.

(** One character of a string as [json.dumps] writes it. *)
Definition dumps_char (c : ascii) : string :=
  let n := nat_of_ascii c in
  if Ascii.eqb c dquote || Ascii.eqb c backslash then String backslash (String c "")
  else if (n =? 8)%nat then String backslash "b"
  else if (n =? 9)%nat then String backslash "t"
  else if (n =? 10)%nat then String backslash "n"
  else if (n =? 12)%nat then String backslash "f"
  else if (n =? 13)%nat then String backslash "r"
  else if (n <? 32)%nat || (127 <=? n)%nat
    then String backslash ("u00" +:+ hex2 c)
  else String c "".

Definition dumps_str (s : string) : string :=
  String dquote (String.concat "" (map dumps_char (String.list_ascii_of_string s)))
    +:+ String dquote "".

Definition dumps_float (r : string) : string :=
  if String.eqb r "nan" then "NaN"
  else if String.eqb r "inf" then "Infinity"
  else if String.eqb r "-inf" then "-Infinity"
  else r.

(** The textual JSON form of a value, the second definition the
    stringification of [Json.extract_json_field] is compared with: it
    follows the specification's words ("objects and arrays render as
    their textual JSON form"), in the layout of Python's [json.dumps]. *)
Fixpoint dumps (j : t) : string :=
  match j with
  | JNull => "null"
  | JBool true => "true"
  | JBool false => "false"
  | JInt n => Py.str_int n
  | JFloat r => dumps_float r
  | JString s => dumps_str s
  | JArray items => "[" +:+ Py.join ", " (map dumps items) +:+ "]"
  | JObject members =>
      "{" +:+ Py.join ", "
                (map (fun kv => dumps_str (fst kv) +:+ ": " +:+ dumps (snd kv)) members)
          +:+ "}"
  end.

(** The plain text form of a scalar, in the specification's words. *)
Definition plain_text (j : t) : string :=
  match j with
  | JString s => s
  | _ => dumps j
  end.

End JsonData.

(** ** Exceptions and outcomes *)

Inductive exn :=
| KeyError
| IndexError
| TypeError
| AttributeError
| ValueError
| JSONDecodeError
| ReError
| CookieConflictError.

Inductive outcome (A : Type) :=
| Ok (a : A)
| Raise (e : exn).

Arguments Ok {A} a.
Arguments Raise {A} e.

(** ** What the source reads of its collaborators *)

(** A [requests.models.Response]: the body as text, the cookie jar and the
    headers.  The jar is the list of its cookies in the order of
    iteration, each with its name and its value, which [http.cookiejar]
    leaves [None] for a cookie sent without one; two cookies of one name
    differ in domain or path, which the source does not ask for.  The
    lookup of a header ignores case: the map is keyed by the lower-case
    name. *)
Record Response := {
  text : string;
  cookies : list (string * option string);
  headers : gmap string string
}.

(** A [bs4] element: its tag name and its attributes.  The value of an
    attribute is a string, as the annotation [Optional[str]] of [value]
    asks of what [extract_html_tag] stores; the attributes [bs4] gives as
    lists of strings ([class], [rel] and the like) are outside the
    model. *)
Record Tag := {
  tag_name : string;
  attrs : gmap string string
}.

(** The result of [re.search(pattern, text)]: an invalid pattern, no match,
    or the first match, of which the source reads [groups()] only: the
    text of each capture group, [None] for a group that took no part. *)
Inductive re_result :=
| re_invalid
| re_none
| re_match (groups : list (option string)).

(** A reference to a plugin object. *)
Definition ref := nat.

(** An argument of [Combine]: a literal or a plugin. *)
Inductive item :=
| Lit (s : string)
| Obj (plugin : ref).

(** The functions of [re], [json], [bs4] and [raider.utils] the module
    calls, and Python's [hash].  None of them is defined in the file. *)
Class Libs := {
  re_search : string → string → re_result;
  json_loads : string → option JsonData.t;
  find_all : string → string → list Tag;
  match_tag : Tag → gmap string string → bool;
  hy_dict_to_python : gmap string string → gmap string string;
  parse_json_filter : string → list string;
  hash : item → Z
}.

(** ** Plugin objects *)

(** The positional argument a stored function is called with: the user
    data, the response, a text, or [None]. *)
Inductive arg :=
| ArgUserdata (userdata : gmap string string)
| ArgResponse (response : Response)
| ArgText (t : string)
| ArgNone.

(** What the attribute [function] can hold: a method bound to the object
    itself, one of the lambdas of the constructors, or a function of the
    caller, which is taken to be pure.  A bound method or a lambda that
    names [self] is run on the object that holds it: the constructors
    store them nowhere else. *)
Inductive func :=
| F_extract_from_userdata
| F_return_value
| F_extract_regex
| F_extract_html_tag
| F_extract_json_from_response
| F_extract_json_field
| F_Variable_lambda
| F_Cookie_extract_from_response
| F_Header_extract_from_response
| F_self_value
| F_from_plugin (plugin : ref)
| F_bearerauth (access_token : ref)
| F_process_value
| F_concatenate_values
| F_custom (f : list arg → outcome (option string)).

(** The class of an object with the attributes its constructor adds. *)
Inductive instance :=
| IsPlugin
| IsRegex (regex : string) (extract : Z)
| IsHtml (tag : string) (attributes : gmap string string) (extract : string)
| IsJson (extract : string)
| IsVariable
| IsCookie
| IsHeader
| IsAlter (alter_function : string → outcome (option string))
| IsCombine (args : list item)
| IsEmpty.

Record plugin := {
  name : string;
  plugins : list ref;
  value : option string;
  flags : Z;
  function : option func;
  inst : instance
}.

Inductive level := DEBUG | WARNING.

(** The message of a log call: a format string, or the tuple of strings
    two calls of [Json.extract_json_field] pass. *)
Inductive log_msg :=
| Fmt (fmt : string)
| FmtTuple (parts : list string).

Record log_record := {
  log_level : level;
  log_msg_of : log_msg;
  log_args : list string
}.

(** The object store, the next free reference and the log. *)
Record state := {
  objs : ref → plugin;
  next : ref;
  log : list log_record
}.

(** ** Computations *)

Definition M (A : Type) : Type := state → outcome A * state.

Definition ret {A : Type} (a : A) : M A := fun s => (Ok a, s).

Definition bind {A B : Type} (m : M A) (k : A → M B) : M B :=
  fun s =>
    match m s with
    | (Ok a, s') => k a s'
    | (Raise e, s') => (Raise e, s')
    end.

Definition raise {A : Type} (e : exn) : M A := fun s => (Raise e, s).

#[global] Instance M_ret : MRet M := @ret.
#[global] Instance M_bind : MBind M := fun A B k m => bind m k.

Definition lift {A : Type} (o : outcome A) : M A := fun s => (o, s).

Definition get_obj (r : ref) : M plugin := fun s => (Ok (objs s r), s).

Definition put_obj (r : ref) (p : plugin) (s : state) : state :=
  {| objs := fun r' => if decide (r' = r) then p else objs s r';
     next := next s;
     log := log s |}.

Definition with_value (v : option string) (p : plugin) : plugin :=
  {| name := name p; plugins := plugins p; value := v; flags := flags p;
     function := function p; inst := inst p |}.

Definition with_plugins (ps : list ref) (p : plugin) : plugin :=
  {| name := name p; plugins := ps; value := value p; flags := flags p;
     function := function p; inst := inst p |}.

Definition with_function (f : option func) (p : plugin) : plugin :=
  {| name := name p; plugins := plugins p; value := value p; flags := flags p;
     function := f; inst := inst p |}.

(** [self.value = v] on the object [r], as a change of the store. *)
Definition assign (r : ref) (v : option string) (s : state) : state :=
  put_obj r (with_value v (objs s r)) s.

(** [self.value = v]. *)
Definition set_value (self : ref) (v : option string) : M unit :=
  fun s => (Ok tt, assign self v s).

(** An assignment to an attribute of the object [r]. *)
Definition update_obj (r : ref) (f : plugin → plugin) : M unit :=
  fun s => (Ok tt, put_obj r (f (objs s r)) s).

(** A constructor call: the new object takes the next free reference. *)
Definition alloc (p : plugin) : M ref :=
  fun s =>
    (Ok (next s),
     {| objs := fun r' => if decide (r' = next s) then p else objs s r';
        next := S (next s);
        log := log s |}).

(** One more record at the end of the log. *)
Definition add_log (w : log_record) (s : state) : state :=
  {| objs := objs s; next := next s; log := log s ++ [w] |}.

Definition emit (l : level) (m : log_msg) (a : list string) : M unit :=
  fun s => (Ok tt, add_log {| log_level := l; log_msg_of := m; log_args := a |} s).

(** [logging.debug(msg, *args)] and [logging.warning(msg, *args)]. *)
Definition logging_debug (m : log_msg) (a : list string) : M unit := emit DEBUG m a.
Definition logging_warning (m : log_msg) (a : list string) : M unit := emit WARNING m a.

(** ** class Plugin: flags, constructor, properties and the two methods a
    [function] attribute can hold

    [get_value] and [extract_value_from_response], which call the stored
    function, come after the subclasses, in the module [Plugin]. *)

Module Base.

Definition NEEDS_USERDATA : Z := 1.
Definition NEEDS_RESPONSE : Z := 2.
Definition DEPENDS_ON_OTHER_PLUGINS : Z := 4.

(** [bool(flags & FLAG)]. *)
Definition has_flag (fl flag : Z) : bool := negb (Z.land fl flag =? 0)%Z.

Definition needs_userdata (p : plugin) : bool := has_flag (flags p) NEEDS_USERDATA.
Definition needs_response (p : plugin) : bool := has_flag (flags p) NEEDS_RESPONSE.
Definition depends_on_other_plugins (p : plugin) : bool :=
  has_flag (flags p) DEPENDS_ON_OTHER_PLUGINS.

(** [Plugin.__init__(self, name, function, flags, value)], followed by the
    attributes the subclass constructor adds ([i]). *)
Definition init (nm : string) (fn : option func) (fl : Z)
    (v : option string) (i : instance) : plugin :=
  {| name := nm;
     plugins := [];
     value := v;
     flags := fl;
     function :=
       match fn with
       | None => if has_flag fl NEEDS_USERDATA then Some F_extract_from_userdata else None
       | Some f => Some f
       end;
     inst := i |}.

(** [Plugin(name, function, flags, value)]. *)
Definition new (nm : string) (fn : option func) (fl : Z) (v : option string) : M ref :=
  alloc (init nm fn fl v IsPlugin).

(** [extract_from_userdata(self, data=None)].  A response is no
    container of strings, so [self.name in data] is false for one. *)
Definition extract_from_userdata (self : ref) (data : arg) : M (option string) :=
  p ← get_obj self;
  match data with
  | ArgUserdata d =>
      match d !! name p with
      | Some v => set_value self (Some v)
      | None => ret tt
      end
  | ArgText t =>
      if negb (String.eqb t "") && Py.contains t (name p) then raise TypeError
      else ret tt
  | ArgResponse _ | ArgNone => ret tt
  end;;
  p' ← get_obj self;
  ret (value p').

(** [return_value(self)]. *)
Definition return_value (self : ref) : M (option string) :=
  p ← get_obj self;
  ret (value p).

End Base.

(** ** class Regex *)

Module Regex.

(** [Regex.__init__(self, name, regex, extract=0)]. *)
Definition init (nm regex : string) (extract : Z) : plugin :=
  Base.init nm (Some F_extract_regex) Base.NEEDS_RESPONSE None (IsRegex regex extract).

Definition new (nm regex : string) (extract : Z) : M ref :=
  alloc (init nm regex extract).

(** [extract_regex(self, response)]. *)
Definition extract_regex `{Libs} (self : ref) (response : arg) : M (option string) :=
  p ← get_obj self;
  match inst p, response with
  | IsRegex regex extract, ArgResponse r =>
      match re_search regex (text r) with
      | re_invalid => raise ReError
      | re_match groups =>
          match Py.index groups extract with
          | Some g =>
              set_value self g;;
              p' ← get_obj self;
              logging_debug (Fmt "Regex %s: %s") [name p'; Py.str (value p')]
          | None => raise IndexError
          end
      | re_none =>
          logging_warning (Fmt "Regex %s not found in the response body") [name p]
      end;;
      p' ← get_obj self;
      ret (value p')
  | _, _ => raise AttributeError
  end.

End Regex.

(** ** class Html *)

Module Html.

(** [Html.__init__(self, name, tag, attributes, extract)]. *)
Definition init `{Libs} (nm tag : string) (attributes : gmap string string)
    (extract : string) : plugin :=
  Base.init nm (Some F_extract_html_tag) Base.NEEDS_RESPONSE None
    (IsHtml tag (hy_dict_to_python attributes) extract).

Definition new `{Libs} (nm tag : string) (attributes : gmap string string)
    (extract : string) : M ref :=
  alloc (init nm tag attributes extract).

(** The loop [for item in matches: if match_tag(item, self.attributes):
    self.value = item.attrs.get(self.extract)]. *)
Fixpoint scan `{Libs} (self : ref) (attributes : gmap string string)
    (extract : string) (matches : list Tag) : M unit :=
  match matches with
  | [] => ret tt
  | item :: rest =>
      (if match_tag item attributes then set_value self (attrs item !! extract)
       else ret tt);;
      scan self attributes extract rest
  end.

(** [extract_html_tag(self, response)]. *)
Definition extract_html_tag `{Libs} (self : ref) (response : arg) : M (option string) :=
  p ← get_obj self;
  match response, inst p with
  | ArgResponse r, IsHtml tag attributes extract =>
      scan self attributes extract (find_all (text r) tag);;
      p' ← get_obj self;
      logging_debug (Fmt "Html filter %s: %s") [name p'; Py.str (value p')];;
      ret (value p')
  | _, _ => raise AttributeError
  end.

End Html.

(** ** class Json *)

Module Json.

(** [Json.__init__(self, name, extract, function=None, flags=NEEDS_RESPONSE)]. *)
Definition init (nm extract : string) (fn : option func) (fl : Z) : plugin :=
  match fn with
  | None => Base.init nm (Some F_extract_json_from_response) fl None (IsJson extract)
  | Some f => Base.init nm (Some f) fl None (IsJson extract)
  end.

Definition new (nm extract : string) (fn : option func) (fl : Z) : M ref :=
  alloc (init nm extract fn fl).

(** [temp[index]] for an integer index: an element of a list, a character
    of a string; a [dict] made by [json.loads] has string keys only. *)
Definition getitem_int (temp : JsonData.t) (index : Z) : outcome JsonData.t :=
  match temp with
  | JsonData.JArray items =>
      match Py.index items index with
      | Some v => Ok v
      | None => Raise IndexError
      end
  | JsonData.JString s =>
      match Py.index (String.list_ascii_of_string s) index with
      | Some c => Ok (JsonData.JString (String c ""))
      | None => Raise IndexError
      end
  | JsonData.JObject _ => Raise KeyError
  | _ => Raise TypeError
  end.

(** [item in temp] for a string [item]: a key of a dict, an element of a
    list, a substring of a string. *)
Definition contains (temp : JsonData.t) (item : string) : outcome bool :=
  match temp with
  | JsonData.JObject members => Ok (bool_decide (is_Some (JsonData.lookup item members)))
  | JsonData.JArray items => Ok (existsb (JsonData.is_string item) items)
  | JsonData.JString s => Ok (Py.contains s item)
  | _ => Raise TypeError
  end.

(** [temp[item]] for a string [item]. *)
Definition getitem_str (temp : JsonData.t) (item : string) : outcome JsonData.t :=
  match temp with
  | JsonData.JObject members =>
      match JsonData.lookup item members with
      | Some v => Ok v
      | None => Raise KeyError
      end
  | _ => Raise TypeError
  end.

(** The loop over [json_filter]: the result is [(is_valid, temp)] when the
    loop ends or breaks. *)
Fixpoint walk (temp : JsonData.t) (json_filter : list string)
    : M (bool * JsonData.t) :=
  match json_filter with
  | [] => ret (true, temp)
  | item :: rest =>
      if Py.startswith item "[" then
        match Py.int (Py.strip "[]" item) with
        | None => raise ValueError
        | Some index =>
            match JsonData.len temp with
            | None => raise TypeError
            | Some n =>
                if (index <? n)%Z then
                  temp' ← lift (getitem_int temp index);
                  walk temp' rest
                else
                  logging_warning
                    (FmtTuple ["JSON array index doesn't exist.";
                               "Cannot extract plugin's value."]) [];;
                  ret (false, temp)
            end
        end
      else
        found ← lift (contains temp item);
        if (found : bool) then
          temp' ← lift (getitem_str temp item);
          walk temp' rest
        else
          logging_warning
            (FmtTuple ["Key '%s' not found in the response body.";
                       "Cannot extract plugin's value."]) [item];;
          ret (false, temp)
  end.

(** [extract_json_field(self, text)]. *)
Definition extract_json_field `{Libs} (self : ref) (text : arg) : M (option string) :=
  match text with
  | ArgText t =>
      match json_loads t with
      | None => raise JSONDecodeError
      | Some data =>
          p ← get_obj self;
          match inst p with
          | IsJson extract =>
              '(is_valid, temp) ← walk data (parse_json_filter extract);
              (if (is_valid : bool) then
                 set_value self (Some (JsonData.str temp));;
                 p' ← get_obj self;
                 logging_debug (Fmt "Json filter %s: %s") [name p'; Py.str (value p')]
               else set_value self None);;
              p' ← get_obj self;
              ret (value p')
          | _ => raise AttributeError
          end
      end
  | _ => raise TypeError
  end.

(** [extract_json_from_response(self, response)]. *)
Definition extract_json_from_response `{Libs} (self : ref) (response : arg)
    : M (option string) :=
  match response with
  | ArgResponse r => extract_json_field self (ArgText (text r))
  | _ => raise AttributeError
  end.

(** [Json.from_plugin(plugin, name, extract)]. *)
Definition from_plugin (plugin : ref) (nm extract : string) : M ref :=
  json_plugin ← new nm extract None Base.DEPENDS_ON_OTHER_PLUGINS;
  update_obj json_plugin (with_plugins [plugin]);;
  update_obj json_plugin (with_function (Some F_extract_json_field));;
  ret json_plugin.

End Json.

(** ** class Variable ([Variable] is a reserved word here) *)

Module Variable_.

(** [Variable.__init__(self, name)]. *)
Definition init (nm : string) : plugin :=
  Base.init nm (Some F_Variable_lambda) Base.NEEDS_USERDATA None IsVariable.

Definition new (nm : string) : M ref := alloc (init nm).

(** [lambda data: data[self.name]]. *)
Definition lambda (self : ref) (data : arg) : M (option string) :=
  p ← get_obj self;
  match data with
  | ArgUserdata d =>
      match d !! name p with
      | Some v => ret (Some v)
      | None => raise KeyError
      end
  | _ => raise TypeError
  end.

End Variable_.

(** ** class Cookie *)

Module Cookie.

(** [Cookie.__init__(self, name, value=None, function=None,
    flags=NEEDS_RESPONSE)]. *)
Definition init (nm : string) (v : option string) (fn : option func) (fl : Z) : plugin :=
  match fn with
  | None =>
      if Base.has_flag fl Base.NEEDS_RESPONSE
      then Base.init nm (Some F_Cookie_extract_from_response) fl v IsCookie
      else Base.init nm (Some F_self_value) fl v IsCookie
  | Some f => Base.init nm (Some f) fl v IsCookie
  end.

Definition new (nm : string) (v : option string) (fn : option func) (fl : Z) : M ref :=
  alloc (init nm v fn fl).

(** The loop of [RequestsCookieJar._find_no_duplicates(name)]: a second
    cookie of that name raises CookieConflictError when the first one has
    a value. *)
Fixpoint find_no_duplicates (nm : string) (toReturn : option string)
    (jar : list (string * option string)) : outcome (option string) :=
  match jar with
  | [] => Ok toReturn
  | (n, v) :: rest =>
      if String.eqb n nm then
        match toReturn with
        | Some _ => Raise CookieConflictError
        | None => find_no_duplicates nm v rest
        end
      else find_no_duplicates nm toReturn rest
  end.

(** [jar.get(name)]: the value of the only cookie of that name; [None]
    when there is none, and when its value is [None] or the empty string,
    where [_find_no_duplicates] raises the KeyError that [get] turns into
    its default. *)
Definition jar_get (nm : string) (jar : list (string * option string))
    : outcome (option string) :=
  match find_no_duplicates nm None jar with
  | Ok toReturn => Ok (if Py.truthy toReturn then toReturn else None)
  | Raise e => Raise e
  end.

(** [extract_from_response(self, response)]:
    [response.cookies.get(self.name)]. *)
Definition extract_from_response (self : ref) (response : arg) : M (option string) :=
  p ← get_obj self;
  match response with
  | ArgResponse r => lift (jar_get (name p) (cookies r))
  | _ => raise AttributeError
  end.

(** [Cookie.from_plugin(plugin, name)]. *)
Definition from_plugin (plugin : ref) (nm : string) : M ref :=
  p ← get_obj plugin;
  new nm (value p) (Some (F_from_plugin plugin)) 0.

End Cookie.

(** ** class Header *)

Module Header.

(** [Header.__init__(self, name, value=None, function=None,
    flags=NEEDS_RESPONSE)]. *)
Definition init (nm : string) (v : option string) (fn : option func) (fl : Z) : plugin :=
  match fn with
  | None =>
      if Base.has_flag fl Base.NEEDS_RESPONSE
      then Base.init nm (Some F_Header_extract_from_response) fl v IsHeader
      else Base.init nm (Some F_self_value) fl v IsHeader
  | Some f => Base.init nm (Some f) fl v IsHeader
  end.

Definition new (nm : string) (v : option string) (fn : option func) (fl : Z) : M ref :=
  alloc (init nm v fn fl).

(** [extract_from_response(self, response)]:
    [response.headers.get(self.name)]. *)
Definition extract_from_response (self : ref) (response : arg) : M (option string) :=
  p ← get_obj self;
  match response with
  | ArgResponse r => ret (headers r !! Py.lower (name p))
  | _ => raise AttributeError
  end.

(** [Header.bearerauth(access_token)]. *)
Definition bearerauth (access_token : ref) : M ref :=
  new "Authorization" None (Some (F_bearerauth access_token)) 0.

(** [Header.from_plugin(plugin, name)]. *)
Definition from_plugin (plugin : ref) (nm : string) : M ref :=
  new nm None (Some (F_from_plugin plugin)) 0.

End Header.

(** ** The lambdas of Cookie and Header *)

Module Lambda.

(** [lambda: self.value]. *)
Definition self_value (self : ref) : M (option string) :=
  p ← get_obj self;
  ret (value p).

(** [lambda: plugin.value if plugin.value else None]. *)
Definition from_plugin (plugin : ref) : M (option string) :=
  p ← get_obj plugin;
  if Py.truthy (value p) then ret (value p) else ret None.

(** [lambda: "Bearer " + access_token.value if access_token.value else None]. *)
Definition bearerauth (access_token : ref) : M (option string) :=
  p ← get_obj access_token;
  match value p with
  | Some v => if Py.truthy (Some v) then ret (Some ("Bearer " +:+ v)) else ret None
  | None => ret None
  end.

End Lambda.

(** ** class Alter *)

Module Alter.

(** [Alter.__init__(self, plugin, alter_function)]. *)
Definition new (plugin : ref) (alter_function : string → outcome (option string))
    : M ref :=
  p ← get_obj plugin;
  self ← alloc (Base.init (name p) (Some F_process_value)
                  Base.DEPENDS_ON_OTHER_PLUGINS (value p) (IsAlter alter_function));
  update_obj self (with_plugins [plugin]);;
  ret self.

(** [process_value(self)]. *)
Definition process_value (self : ref) : M (option string) :=
  p ← get_obj self;
  match Py.index (plugins p) 0 with
  | None => raise IndexError
  | Some source =>
      src ← get_obj source;
      match value src with
      | Some v =>
          if Py.truthy (Some v) then
            match inst p with
            | IsAlter alter_function =>
                v' ← lift (alter_function v);
                set_value self v'
            | _ => raise AttributeError
            end
          else ret tt
      | None => ret tt
      end
  end;;
  p' ← get_obj self;
  ret (value p').

(** [Alter.prepend(plugin, string)]. *)
Definition prepend (plugin : ref) (s : string) : M ref :=
  new plugin (fun v => Ok (Some (s +:+ v))).

(** [Alter.append(plugin, string)]. *)
Definition append (plugin : ref) (s : string) : M ref :=
  new plugin (fun v => Ok (Some (v +:+ s))).

End Alter.

(** ** class Combine *)

Module Combine.

Definition plugins_of (args : list item) : list ref :=
  omap (fun it => match it with Obj r => Some r | Lit _ => None end) args.

(** [Combine.__init__(self, *args)]. *)
Definition new `{Libs} (args : list item) : M ref :=
  let nm := Py.str_int (foldr (fun it acc => (hash it + acc)%Z) 0%Z args) in
  self ← alloc (Base.init nm (Some F_concatenate_values)
                  Base.DEPENDS_ON_OTHER_PLUGINS None (IsCombine args));
  update_obj self (with_plugins (plugins_of args));;
  ret self.

(** The loop of [concatenate_values] over [self.args]. *)
Fixpoint concat (combined : string) (args : list item) : M string :=
  match args with
  | [] => ret combined
  | Lit s :: rest => concat (combined +:+ s) rest
  | Obj r :: rest =>
      p ← get_obj r;
      match value p with
      | Some v =>
          if Py.truthy (Some v) then concat (combined +:+ v) rest
          else concat combined rest
      | None => concat combined rest
      end
  end.

(** [concatenate_values(self)]. *)
Definition concatenate_values (self : ref) : M (option string) :=
  p ← get_obj self;
  match inst p with
  | IsCombine args =>
      combined ← concat "" args;
      ret (Some combined)
  | _ => raise AttributeError
  end.

End Combine.

(** ** class Empty *)

Module Empty.

(** [Empty.__init__(self, name)]. *)
Definition init (nm : string) : plugin :=
  Base.init nm (Some F_return_value) 0 None IsEmpty.

Definition new (nm : string) : M ref := alloc (init nm).

End Empty.

(** ** class Plugin: the methods that call the stored function *)

Module Plugin.

(** A call with no positional argument. *)
Definition nullary {A : Type} (args : list arg) (body : M A) : M A :=
  match args with
  | [] => body
  | _ => raise TypeError
  end.

(** A call with one positional argument. *)
Definition unary {A : Type} (args : list arg) (body : arg → M A) : M A :=
  match args with
  | [a] => body a
  | _ => raise TypeError
  end.

(** A call of [self.function]: calling [None] or calling with the wrong
    number of arguments raises TypeError. *)
Definition call `{Libs} (self : ref) (fn : option func) (args : list arg)
    : M (option string) :=
  match fn with
  | None => raise TypeError
  | Some F_extract_from_userdata =>
      match args with
      | [] => Base.extract_from_userdata self ArgNone
      | [data] => Base.extract_from_userdata self data
      | _ => raise TypeError
      end
  | Some F_return_value => nullary args (Base.return_value self)
  | Some F_extract_regex => unary args (Regex.extract_regex self)
  | Some F_extract_html_tag => unary args (Html.extract_html_tag self)
  | Some F_extract_json_from_response => unary args (Json.extract_json_from_response self)
  | Some F_extract_json_field => unary args (Json.extract_json_field self)
  | Some F_Variable_lambda => unary args (Variable_.lambda self)
  | Some F_Cookie_extract_from_response => unary args (Cookie.extract_from_response self)
  | Some F_Header_extract_from_response => unary args (Header.extract_from_response self)
  | Some F_self_value => nullary args (Lambda.self_value self)
  | Some (F_from_plugin plugin) => nullary args (Lambda.from_plugin plugin)
  | Some (F_bearerauth access_token) => nullary args (Lambda.bearerauth access_token)
  | Some F_process_value => nullary args (Alter.process_value self)
  | Some F_concatenate_values => nullary args (Combine.concatenate_values self)
  | Some (F_custom f) => lift (f args)
  end.

(** [get_value(self, userdata)]. *)
Definition get_value `{Libs} (self : ref) (userdata : gmap string string)
    : M (option string) :=
  p ← get_obj self;
  (if negb (Base.needs_response p) then
     if Base.needs_userdata p then
       v ← call self (function p) [ArgUserdata userdata];
       set_value self v
     else
       v ← call self (function p) [];
       set_value self v
   else ret tt);;
  p' ← get_obj self;
  ret (value p').

Definition arg_of_response (response : option Response) : arg :=
  match response with
  | Some r => ArgResponse r
  | None => ArgNone
  end.

(** [extract_value_from_response(self, response)]. *)
Definition extract_value_from_response `{Libs} (self : ref)
    (response : option Response) : M unit :=
  p ← get_obj self;
  output ← call self (function p) [arg_of_response response];
  if Py.truthy output then
    set_value self output;;
    p' ← get_obj self;
    logging_debug (Fmt "Found ouput %s = %s") [name p'; Py.str (value p')]
  else
    p' ← get_obj self;
    logging_warning (Fmt "Couldn't extract output: %s") [name p'].

End Plugin.

(** ** The side conditions of the properties, as executable predicates *)

(** A step of a parsed path, as the specification reads an item of
    [parse_json_filter]: [[n]] with a non-negative [n] is a sequence index,
    an item that does not start with a bracket is a mapping key. *)
Inductive step :=
| Index (n : nat)
| Key (k : string).

Definition step_of (item : string) : option step :=
  if Py.startswith item "[" then
    match Py.int (Py.strip "[]" item) with
    | Some n => if (0 <=? n)%Z then Some (Index (Z.to_nat n)) else None
    | None => None
    end
  else Some (Key item).

(** The substructure a path addresses: an index step enters an array, a
    key step enters an object. *)
Fixpoint descend (temp : JsonData.t) (path : list string) : option JsonData.t :=
  match path with
  | [] => Some temp
  | item :: rest =>
      match step_of item, temp with
      | Some (Index n), JsonData.JArray items =>
          match items !! n with
          | Some v => descend v rest
          | None => None
          end
      | Some (Key k), JsonData.JObject members =>
          match JsonData.lookup k members with
          | Some v => descend v rest
          | None => None
          end
      | _, _ => None
      end
  end.

(** The path references a key that the current object lacks, or an index
    out of the range of the current array. *)
Fixpoint misses (temp : JsonData.t) (path : list string) : bool :=
  match path with
  | [] => false
  | item :: rest =>
      match step_of item, temp with
      | Some (Index n), JsonData.JArray items =>
          match items !! n with
          | Some v => misses v rest
          | None => true
          end
      | Some (Key k), JsonData.JObject members =>
          match JsonData.lookup k members with
          | Some v => misses v rest
          | None => true
          end
      | _, _ => false
      end
  end.

(** What an argument of [Combine] contributes in the store [s]. *)
Definition contribution (s : state) (it : item) : string :=
  match it with
  | Lit l => l
  | Obj r => default "" (value (objs s r))
  end.

(** The last element of [matches] that satisfies the constraints. *)
Definition last_match `{Libs} (attributes : gmap string string) (matches : list Tag)
    : option Tag :=
  last (filter (fun item => match_tag item attributes = true) matches).

(** The record [extract_json_field] logs when it finds the field. *)
Definition found_record (nm : string) (v : JsonData.t) : log_record :=
  {| log_level := DEBUG; log_msg_of := Fmt "Json filter %s: %s";
     log_args := [nm; JsonData.str v] |}.

(** [v if v else None]: a non-empty string, or [None]. *)
Definition nonempty (v : option string) : option string :=
  if Py.truthy v then v else None.

(** The records the methods log. *)
Definition regex_found (nm : string) (v : option string) : log_record :=
  {| log_level := DEBUG; log_msg_of := Fmt "Regex %s: %s";
     log_args := [nm; Py.str v] |}.


Definition html_filter (nm : string) (v : option string) : log_record :=
  {| log_level := DEBUG; log_msg_of := Fmt "Html filter %s: %s";
     log_args := [nm; Py.str v] |}.

Definition found_output (nm : string) (v : option string) : log_record :=
  {| log_level := DEBUG; log_msg_of := Fmt "Found ouput %s = %s";
     log_args := [nm; Py.str v] |}.

Definition no_output (nm : string) : log_record :=
  {| log_level := WARNING; log_msg_of := Fmt "Couldn't extract output: %s";
     log_args := [nm] |}.

(** The store after the loop of [Html.extract_html_tag]: one assignment for
    each element that satisfies the constraints, in document order. *)
Definition scanned `{Libs} (self : ref) (attributes : gmap string string)
    (extract : string) (matches : list Tag) (s : state) : state :=
  foldl (fun s' item =>
           if match_tag item attributes then assign self (attrs item !! extract) s'
           else s')
        s matches.


(** ** A store and library answers for the examples

    [Demo.libs] gives the answers of the libraries at the inputs the
    examples use; elsewhere its answers are arbitrary. *)

Module Demo.

Definition blank : plugin :=
  {| name := ""; plugins := []; value := None; flags := 0;
     function := None; inst := IsPlugin |}.

(** The store before any constructor call. *)
Definition s0 : state := {| objs := fun _ => blank; next := 0; log := [] |}.

(** [re.search("token=(\w+)", "token=abc")] matches with one group, and so
    does [re.search("token=(\w{0,})", "token=")], whose group is empty. *)
Definition search (pattern text : string) : re_result :=
  if String.eqb pattern "token=(\w+)" && String.eqb text "token=abc"
  then re_match [Some "abc"]
  else if String.eqb pattern "token=(\w{0,})" && String.eqb text "token="
  then re_match [Some ""]
  else re_none.

Definition loads (t : string) : option JsonData.t :=
  if String.eqb t "{}" then Some (JsonData.JObject [])
  else if String.eqb t "[10, 20]"
    then Some (JsonData.JArray [JsonData.JInt 10; JsonData.JInt 20])
  else if String.eqb t "[[true, null]]"
    then Some (JsonData.JArray [JsonData.JArray [JsonData.JBool true; JsonData.JNull]])
  else None.

Definition input (v : string) : Tag :=
  {| tag_name := "input"; attrs := {[ "name" := "csrf"; "value" := v ]} |}.

Definition two_inputs : string :=
  "<input name=csrf value=tok1><input name=csrf value=tok2>".

Definition elements (text tag : string) : list Tag :=
  if String.eqb text two_inputs && String.eqb tag "input"
  then [input "tok1"; input "tok2"]
  else [].

(** Every constrained attribute is present and equal to its pattern, which
    is how a pattern without special characters matches. *)
Definition matches (item : Tag) (attributes : gmap string string) : bool :=
  bool_decide (map_Forall (fun k pat => attrs item !! k = Some pat) attributes).

(** A path of one step is its only item. *)
Definition one_step (raw : string) : list string :=
  if String.eqb raw "" then [] else [raw].

#[local] Instance libs : Libs := {|
  re_search := search;
  json_loads := loads;
  find_all := elements;
  match_tag := matches;
  hy_dict_to_python := fun d => d;
  parse_json_filter := one_step;
  hash := fun _ => 0%Z
|}.

Definition response (body : string) : Response :=
  {| text := body; cookies := []; headers := ∅ |}.

(** The store a computation leaves when it starts from [s0], and what it
    returns or raises. *)
Definition after {A : Type} (m : M A) : state := snd (m s0).
Definition result {A : Type} (m : M A) : outcome A := fst (m s0).

(** A Regex plugin that found a token in one response is run on a second
    response, where its pattern has no match. *)
Definition regex_reused : M (option string) :=
  r ← Regex.new "token" "token=(\w+)" 0;
  Plugin.extract_value_from_response r (Some (response "token=abc"));;
  Regex.extract_regex r (ArgResponse (response "denied")).

(** The same for an Html plugin: the second body has no [input] element. *)
Definition html_reused : M (option string) :=
  r ← Html.new "csrf" "input" {[ "name" := "csrf" ]} "value";
  Plugin.extract_value_from_response r (Some (response two_inputs));;
  Html.extract_html_tag r (ArgResponse (response "<p>denied</p>")).

Definition html_resolved_twice : M unit :=
  r ← Html.new "csrf" "input" {[ "name" := "csrf" ]} "value";
  Plugin.extract_value_from_response r (Some (response two_inputs));;
  Plugin.extract_value_from_response r (Some (response "<p>denied</p>")).

(** [Variable("username").get_value({})]. *)
Definition variable_missing : M (option string) :=
  r ← Variable_.new "username";
  Plugin.get_value r ∅.




(** [Json.from_plugin(n, "j", "[1]")] where the value of [n] is the
    document [[10, 20]]: resolved by [get_value], resolved against a
    response, and its function called with the value of [n]. *)
Definition json_chained : M (option string) :=
  n ← Empty.new "n";
  set_value n (Some "[10, 20]");;
  j ← Json.from_plugin n "j" "[1]";
  Plugin.get_value j ∅.

Definition json_chained_response : M unit :=
  n ← Empty.new "n";
  set_value n (Some "[10, 20]");;
  j ← Json.from_plugin n "j" "[1]";
  Plugin.extract_value_from_response j (Some (response "[10, 20]")).

Definition json_chained_by_hand : M (option string) :=
  n ← Empty.new "n";
  set_value n (Some "[10, 20]");;
  j ← Json.from_plugin n "j" "[1]";
  source ← get_obj n;
  Json.extract_json_field j (ArgText (default "" (value source))).

(** The path [[0]] in the document [[[true, null]]]. *)
Definition json_array : M (option string) :=
  r ← Json.new "j" "[0]" None Base.NEEDS_RESPONSE;
  Json.extract_json_field r (ArgText "[[true, null]]").

(** [Alter.prepend(n, "X-")] when the value of [n] is the empty string. *)
Definition alter_empty : M (option string) :=
  n ← Empty.new "n";
  a ← Alter.prepend n "X-";
  set_value n (Some "");;
  Plugin.get_value a ∅.

(** [Alter.prepend(n, "X-")] constructed while the value of [n] is
    ["token"], and resolved after [n] lost its value. *)
Definition alter_cleared : M (option string) :=
  n ← Empty.new "n";
  set_value n (Some "token");;
  a ← Alter.prepend n "X-";
  set_value n None;;
  Plugin.get_value a ∅.

(** [Alter.prepend(n, "X-")] resolved once on ["token"], and again after
    [n] lost its value. *)
Definition alter_stale : M (option string) :=
  n ← Empty.new "n";
  set_value n (Some "token");;
  a ← Alter.prepend n "X-";
  Plugin.get_value a ∅;;
  set_value n None;;
  Plugin.get_value a ∅.

(** [Header.from_plugin(n, "Auth")] when the value of [n] has become the
    empty string. *)
Definition header_empty : M (option string) :=
  n ← Empty.new "n";
  h ← Header.from_plugin n "Auth";
  set_value n (Some "");;
  Plugin.get_value h ∅.

(** Stores with one plugin of a kind at reference 0, or a plugin at 0 and
    one that depends on it at 1. *)
Definition with_regex : state := after (Regex.new "token" "token=(\w+)" 0).

Definition with_json : state := after (Json.new "j" "a" None Base.NEEDS_RESPONSE).

Definition with_two_json : state :=
  after (Json.new "j" "[0]" None Base.NEEDS_RESPONSE;;
         Json.from_plugin 0 "k" "[0]").

Definition with_cookie : state :=
  after (Cookie.new "sid" None None Base.NEEDS_RESPONSE).


Definition with_combine : state :=
  after (n ← Empty.new "n";
         set_value n (Some "abc123");;
         Combine.new [Lit "Bearer "; Obj n]).

Definition with_alter : state :=
  after (n ← Empty.new "n";
         set_value n (Some "token");;
         Alter.prepend n "X-").

Definition with_empty : state := after (Empty.new "n").

End Demo.


(** ** More records of the log *)

(** The two warnings of the loop of [Json.extract_json_field]. *)
Definition index_not_found : log_record :=
  {| log_level := WARNING;
     log_msg_of := FmtTuple ["JSON array index doesn't exist.";
                             "Cannot extract plugin's value."];
     log_args := [] |}.

Definition key_not_found (item : string) : log_record :=
  {| log_level := WARNING;
     log_msg_of := FmtTuple ["Key '%s' not found in the response body.";
                             "Cannot extract plugin's value."];
     log_args := [item] |}.

(** The store after some more records. *)
Definition add_logs (l : list log_record) (s : state) : state :=
  foldl (fun s' w => add_log w s') s l.

(** ** Header.basicauth

    [str.encode("utf-8")] and [base64.b64encode] are written out: a string
    is a sequence of code points below 256, a byte string a list of
    bytes.  The output of [b64encode] is ASCII, so its [decode("utf-8")]
    is the same sequence of characters. *)

Module Codec.

(** The UTF-8 bytes of one code point below 256. *)
Definition utf8_char (c : ascii) : list ascii :=
  let n := nat_of_ascii c in
  if (n <? 128)%nat then [c]
  else [ascii_of_nat (192 + n / 64); ascii_of_nat (128 + n mod 64)].

(** [s.encode("utf-8")]. *)
Fixpoint encode (s : string) : list ascii :=
  match s with
  | EmptyString => []
  | String c s' => utf8_char c ++ encode s'
  end.

Definition alphabet : list ascii :=
  String.list_ascii_of_string
    "ABCDEFGHIJKLMNOPQRSTUVWXYZabcdefghijklmnopqrstuvwxyz0123456789+/".

Definition pad : ascii := "="%char.

(** The character of a 6-bit value. *)
Definition b64_char (i : nat) : ascii := nth i alphabet pad.

(** [base64.b64encode(bs)]: three bytes give four characters; one or two
    bytes left over give two or three characters and padding. *)
Fixpoint b64encode (bs : list ascii) : list ascii :=
  match bs with
  | [] => []
  | [b1] =>
      let n1 := nat_of_ascii b1 in
      [b64_char (n1 / 4); b64_char (n1 mod 4 * 16); pad; pad]
  | [b1; b2] =>
      let n1 := nat_of_ascii b1 in
      let n2 := nat_of_ascii b2 in
      [b64_char (n1 / 4); b64_char (n1 mod 4 * 16 + n2 / 16);
       b64_char (n2 mod 16 * 4); pad]
  | b1 :: b2 :: b3 :: rest =>
      let n1 := nat_of_ascii b1 in
      let n2 := nat_of_ascii b2 in
      let n3 := nat_of_ascii b3 in
      b64_char (n1 / 4) :: b64_char (n1 mod 4 * 16 + n2 / 16)
        :: b64_char (n2 mod 16 * 4 + n3 / 64) :: b64_char (n3 mod 64)
        :: b64encode rest
  end.

(** The 6-bit value of a character of the alphabet. *)
Fixpoint position (c : ascii) (cs : list ascii) : nat :=
  match cs with
  | [] => 0
  | c' :: cs' => if Ascii.eqb c c' then 0 else S (position c cs')
  end.

Definition b64_index (c : ascii) : nat := position c alphabet.

(** The inverse of [b64encode] on its outputs; the source does not decode,
    the function serves to show that the encoding loses nothing. *)
Fixpoint b64decode (cs : list ascii) : list ascii :=
  match cs with
  | c1 :: c2 :: c3 :: c4 :: rest =>
      let i1 := b64_index c1 in
      let i2 := b64_index c2 in
      let i3 := b64_index c3 in
      let i4 := b64_index c4 in
      let b1 := ascii_of_nat (i1 * 4 + i2 / 16) in
      let b2 := ascii_of_nat (i2 mod 16 * 16 + i3 / 4) in
      let b3 := ascii_of_nat (i3 mod 4 * 64 + i4) in
      if Ascii.eqb c3 pad then [b1]
      else if Ascii.eqb c4 pad then [b1; b2]
      else b1 :: b2 :: b3 :: b64decode rest
  | _ => []
  end.

(** The inverse of [encode] on its outputs. *)
Fixpoint decode (bs : list ascii) : string :=
  match bs with
  | [] => EmptyString
  | b :: rest =>
      let n := nat_of_ascii b in
      if (n <? 128)%nat then String b (decode rest)
      else
        match rest with
        | b' :: rest' =>
            String (ascii_of_nat ((n - 192) * 64 + (nat_of_ascii b' - 128)))
              (decode rest')
        | [] => EmptyString
        end
  end.

(** The value of the header: ["Basic "] and the encoded credentials. *)
Definition basic (username password : string) : string :=
  "Basic " +:+
  String.string_of_list_ascii
    (b64encode (encode (username +:+ ":" +:+ password))).

End Codec.

Module Auth.

(** [Header.basicauth(username, password)]: the class is called with the
    name and the value only, so the flags are the default,
    NEEDS_RESPONSE. *)
Definition basicauth (username password : string) : M ref :=
  Header.new "Authorization" (Some (Codec.basic username password)) None
    Base.NEEDS_RESPONSE.

End Auth.

(** ** class Prompt

    The console is the list of the lines still to be read and the list of
    the texts written so far.  [input] writes its prompt and takes the
    next line; at the end of the input it raises EOFError. *)

Module Prompt.

Inductive result :=
| Entered (v : string)
| EOFError.

Record console := {
  stdin : list string;
  stdout : list string
}.

Definition notice : string := "Please provide the input value".

(** What one round of the loop writes: the line of [print] and the prompt
    of [input]. *)
Definition round (nm : string) : list string := [notice; nm +:+ " = "].

(** The loop [while not self.value: print(...); self.value = input(...)]. *)
Fixpoint loop (self : ref) (lines out : list string) (s : state)
    : result * state * console :=
  let out' := out ++ round (name (objs s self)) in
  match lines with
  | [] => (EOFError, s, {| stdin := []; stdout := out' |})
  | line :: rest =>
      let s' := assign self (Some line) s in
      if Py.truthy (Some line) then
        (Entered line, s', {| stdin := rest; stdout := out' |})
      else loop self rest out' s'
  end.

(** [get_user_prompt(self)]. *)
Definition get_user_prompt (self : ref) (c : console) (s : state)
    : result * state * console :=
  loop self (stdin c) (stdout c) (assign self None s).

End Prompt.

(** ** More stores and library answers for the examples *)

Module Demo2.

(** [re.search("abc", "xabcx")] matches, and the pattern has no group. *)
Definition search (pattern text : string) : re_result :=
  if String.eqb pattern "abc" && String.eqb text "xabcx" then re_match []
  else Demo.search pattern text.

#[local] Instance libs : Libs := {|
  re_search := search;
  json_loads := Demo.loads;
  find_all := Demo.elements;
  match_tag := Demo.matches;
  hy_dict_to_python := fun d => d;
  parse_json_filter := Demo.one_step;
  hash := fun _ => 0%Z
|}.

Definition credentials : gmap string string := {[ "username" := "admin" ]}.

Definition with_plugin : state :=
  Demo.after (Base.new "username" None Base.NEEDS_USERDATA None).

Definition with_variable : state := Demo.after (Variable_.new "username").

Definition with_plain_regex : state := Demo.after (Regex.new "r" "abc" 0).

Definition with_last_regex : state :=
  Demo.after (Regex.new "token" "token=(\w+)" (-1)).

Definition with_html : state :=
  Demo.after (@Html.new Demo.libs "csrf" "input" {[ "name" := "csrf" ]} "value").

(** A plugin with the value ["abc123"] at 0, a Combine over it at 1 and a
    Combine over that one at 2. *)
Definition with_nested : state :=
  Demo.after (n ← Empty.new "n";
              set_value n (Some "abc123");;
              c ← @Combine.new Demo.libs [Lit "Bearer "; Obj n];
              @Combine.new Demo.libs [Lit "Authorization: "; Obj c]).

(** A plugin with the value ["token"] at 0. *)
Definition with_token : state :=
  Demo.after (n ← Empty.new "n"; set_value n (Some "token")).

Definition with_header : state :=
  Demo.after (Header.new "Server" (Some "unknown") None Base.NEEDS_RESPONSE).

Definition served : Response :=
  {| text := ""; cookies := [("sid", Some "abc")];
     headers := {[ "server" := "nginx" ]} |}.

(** A response with two cookies of one name, for two paths. *)
Definition two_sids : Response :=
  {| text := ""; cookies := [("sid", Some "abc"); ("sid", Some "xyz")];
     headers := ∅ |}.

(** Two empty lines, an answer, and a line that stays unread. *)
Definition console : Prompt.console :=
  {| Prompt.stdin := [""; ""; "1234"; "x"]; Prompt.stdout := [] |}.

End Demo2.
(** * Properties *)

(** Unfolds the computations of a goal down to the store. *)
Ltac run :=
  repeat
    (cbv beta iota delta
       [mbind mret M_bind M_ret bind ret raise lift get_obj set_value update_obj
        emit logging_debug logging_warning Plugin.nullary Plugin.unary] in *;
     cbn [fst snd] in * ).

Lemma append_nil_r (s : string) : s +:+ "" = s.
Proof.
  induction s as [|a s IH]; [reflexivity|].
  change (String a (s +:+ "") = String a s). by rewrite IH.
Qed.

Lemma append_assoc (s1 s2 s3 : string) : (s1 +:+ s2) +:+ s3 = s1 +:+ (s2 +:+ s3).
Proof.
  induction s1 as [|a s1 IH]; [reflexivity|].
  change (String a ((s1 +:+ s2) +:+ s3) = String a (s1 +:+ (s2 +:+ s3))).
  by rewrite IH.
Qed.

Lemma truthy_nonempty (v : string) : v ≠ "" → Py.truthy (Some v) = true.
Proof.
  intros H. unfold Py.truthy. apply negb_true_iff. by apply String.eqb_neq.
Qed.

Lemma truthy_inv (o : option string) :
  Py.truthy o = true → ∃ v, o = Some v ∧ v ≠ "".
Proof.
  destruct o as [v|]; [|done]. intros H. exists v. split; [done|].
  apply negb_true_iff in H. by apply String.eqb_neq.
Qed.

Lemma falsy_inv (o : option string) :
  Py.truthy o = false → o = None ∨ o = Some "".
Proof.
  destruct o as [v|]; [|by left]. intros H. right.
  apply negb_false_iff in H. apply String.eqb_eq in H. by subst.
Qed.

(** *** The store after an assignment or a log call *)

Lemma objs_assign (r r' : ref) (v : option string) (s : state) :
  objs (assign r v s) r' =
    if decide (r' = r) then with_value v (objs s r) else objs s r'.
Proof. reflexivity. Qed.

Lemma objs_assign_eq (r : ref) (v : option string) (s : state) :
  objs (assign r v s) r = with_value v (objs s r).
Proof. rewrite objs_assign. by rewrite decide_True. Qed.

Lemma objs_assign_ne (r r' : ref) (v : option string) (s : state) :
  r' ≠ r → objs (assign r v s) r' = objs s r'.
Proof. intros H. rewrite objs_assign. by rewrite decide_False. Qed.

Lemma value_assign (r : ref) (v : option string) (s : state) :
  value (objs (assign r v s) r) = v.
Proof. by rewrite objs_assign_eq. Qed.

Lemma log_assign (r : ref) (v : option string) (s : state) :
  log (assign r v s) = log s.
Proof. reflexivity. Qed.

Lemma objs_add_log (w : log_record) (s : state) (r : ref) :
  objs (add_log w s) r = objs s r.
Proof. reflexivity. Qed.

Lemma log_add_log (w : log_record) (s : state) :
  log (add_log w s) = log s ++ [w].
Proof. reflexivity. Qed.

(** An assignment to [value] keeps every other attribute. *)
Lemma assign_keeps (r r' : ref) (v : option string) (s : state) :
  name (objs (assign r v s) r') = name (objs s r') ∧
  plugins (objs (assign r v s) r') = plugins (objs s r') ∧
  flags (objs (assign r v s) r') = flags (objs s r') ∧
  function (objs (assign r v s) r') = function (objs s r') ∧
  inst (objs (assign r v s) r') = inst (objs s r').
Proof.
  rewrite objs_assign. destruct (decide (r' = r)) as [->|]; done.
Qed.

Lemma name_assign (r r' : ref) (v : option string) (s : state) :
  name (objs (assign r v s) r') = name (objs s r').
Proof. apply assign_keeps. Qed.

#[global] Opaque assign add_log.

Section Resolution.

Context {L : Libs}.

(** *** Plugin.get_value *)

Lemma get_value_userdata (self : ref) (userdata : gmap string string) (s : state) :
  Base.needs_response (objs s self) = false →
  Base.needs_userdata (objs s self) = true →
  Plugin.get_value self userdata s =
    match Plugin.call self (function (objs s self)) [ArgUserdata userdata] s with
    | (Ok v, s') => (Ok v, assign self v s')
    | (Raise e, s') => (Raise e, s')
    end.
Proof.
  intros Hr Hu. unfold Plugin.get_value. run. rewrite Hr, Hu. cbn.
  destruct (Plugin.call _ _ _ s) as [[v|e] s']; [|done].
  by rewrite value_assign.
Qed.

Lemma get_value_plain (self : ref) (userdata : gmap string string) (s : state) :
  Base.needs_response (objs s self) = false →
  Base.needs_userdata (objs s self) = false →
  Plugin.get_value self userdata s =
    match Plugin.call self (function (objs s self)) [] s with
    | (Ok v, s') => (Ok v, assign self v s')
    | (Raise e, s') => (Raise e, s')
    end.
Proof.
  intros Hr Hu. unfold Plugin.get_value. run. rewrite Hr, Hu. cbn.
  destruct (Plugin.call _ _ _ s) as [[v|e] s']; [|done].
  by rewrite value_assign.
Qed.

(** C10: on a plugin whose NEEDS_RESPONSE flag is set, [get_value] calls no
    function and changes neither the store nor the log: it returns the
    current value of the plugin, and raises nothing. *)
Theorem get_value_needs_response (self : ref) (userdata : gmap string string)
    (s : state) :
  Base.needs_response (objs s self) = true →
  Plugin.get_value self userdata s = (Ok (value (objs s self)), s).
Proof.
  intros Hflag. unfold Plugin.get_value. run. by rewrite Hflag.
Qed.

(** *** Variable *)

(** The part of C4 that the code keeps: when the name of a Variable is a
    key of the user data, [get_value] returns the value stored under it. *)
Lemma Variable_get_value_present (self : ref) (userdata : gmap string string)
    (s : state) (nm v : string) :
  objs s self = Variable_.init nm →
  userdata !! nm = Some v →
  Plugin.get_value self userdata s = (Ok (Some v), assign self (Some v) s).
Proof.
  intros Hobj Hkey.
  rewrite get_value_userdata by (by rewrite Hobj).
  rewrite Hobj. cbn. unfold Variable_.lambda. run. rewrite Hobj. cbn.
  by rewrite Hkey.
Qed.

(** What the code does when the key is missing: KeyError, and the store
    is left as it was. *)
Lemma Variable_get_value_missing (self : ref) (userdata : gmap string string)
    (s : state) (nm : string) :
  objs s self = Variable_.init nm →
  userdata !! nm = None →
  Plugin.get_value self userdata s = (Raise KeyError, s).
Proof.
  intros Hobj Hkey.
  rewrite get_value_userdata by (by rewrite Hobj).
  rewrite Hobj. cbn. unfold Variable_.lambda. run. rewrite Hobj. cbn.
  by rewrite Hkey.
Qed.

(** *** Combine *)

Lemma concat_spec (args : list item) (combined : string) (s : state) :
  Combine.concat combined args s =
    (Ok (combined +:+ foldr String.append "" (map (contribution s) args)), s).
Proof.
  revert combined. induction args as [|[l|r] args IH]; intros combined; cbn.
  - by rewrite append_nil_r.
  - rewrite IH. by rewrite append_assoc.
  - run. destruct (value (objs s r)) as [v|]; cbn; [|by rewrite IH].
    destruct (String.eqb_spec v "") as [->|Hne]; cbn; rewrite IH.
    + done.
    + by rewrite append_assoc.
Qed.

(** C7: a Combine plugin resolves to the concatenation of what its
    arguments contribute, in order: a literal its text, a plugin its
    current value, a plugin without value nothing; nothing is raised.
    [get_value] stores and returns that string.  So ["Bearer "] followed
    by a plugin whose value is ["abc123"] gives ["Bearer abc123"], and
    ["Bearer "] when the plugin has no value. *)
Theorem Combine_concatenates (self : ref) (userdata : gmap string string)
    (s : state) (args : list item) :
  inst (objs s self) = IsCombine args →
  function (objs s self) = Some F_concatenate_values →
  flags (objs s self) = Base.DEPENDS_ON_OTHER_PLUGINS →
  let combined := foldr String.append "" (map (contribution s) args) in
  Combine.concatenate_values self s = (Ok (Some combined), s) ∧
  Plugin.get_value self userdata s =
    (Ok (Some combined), assign self (Some combined) s) ∧
  (∀ n, args = [Lit "Bearer "; Obj n] →
        value (objs s n) = Some "abc123" → combined = "Bearer abc123") ∧
  (∀ n, args = [Lit "Bearer "; Obj n] →
        value (objs s n) = None → combined = "Bearer ").
Proof.
  intros Hinst Hfun Hflags combined.
  assert (Hc : Combine.concatenate_values self s = (Ok (Some combined), s)).
  { unfold Combine.concatenate_values. run. rewrite Hinst.
    by rewrite concat_spec. }
  split; [exact Hc|]. split.
  - rewrite get_value_plain.
    + rewrite Hfun. cbn. run. by rewrite Hc.
    + unfold Base.needs_response. by rewrite Hflags.
    + unfold Base.needs_userdata. by rewrite Hflags.
  - split; intros n -> Hv; subst combined; cbn; by rewrite Hv.
Qed.

(** The object [Combine] makes. *)
Lemma Combine_new_obj (args : list item) (s : state) :
  ∃ s', Combine.new args s = (Ok (next s), s') ∧
        inst (objs s' (next s)) = IsCombine args ∧
        function (objs s' (next s)) = Some F_concatenate_values ∧
        flags (objs s' (next s)) = Base.DEPENDS_ON_OTHER_PLUGINS ∧
        value (objs s' (next s)) = None ∧
        ∀ r, r ≠ next s → objs s' r = objs s r.
Proof.
  eexists. split; [reflexivity|]. cbn. rewrite !decide_True by done. cbn.
  repeat split. intros r Hr. by rewrite !decide_False.
Qed.

End Resolution.

(** *** Paths through a JSON value *)

Lemma step_of_Index (item : string) (n : nat) :
  step_of item = Some (Index n) →
  Py.startswith item "[" = true ∧
  ∃ z, Py.int (Py.strip "[]" item) = Some z ∧ (0 ≤ z)%Z ∧ n = Z.to_nat z.
Proof.
  unfold step_of. destruct (Py.startswith item "["); [|done].
  destruct (Py.int _) as [z|]; [|done].
  destruct (0 <=? z)%Z eqn:Hz; [|done].
  intros [= <-]. split; [done|]. exists z. split; [done|]. split; [lia|done].
Qed.

Lemma step_of_Key (item k : string) :
  step_of item = Some (Key k) → Py.startswith item "[" = false ∧ k = item.
Proof.
  unfold step_of. destruct (Py.startswith item "[").
  - destruct (Py.int _) as [z|]; [|done]. by destruct (0 <=? z)%Z.
  - by intros [= <-].
Qed.

Lemma index_nonneg {A : Type} (l : list A) (z : Z) :
  (0 ≤ z < Z.of_nat (length l))%Z → Py.index l z = l !! Z.to_nat z.
Proof. intros H. unfold Py.index. by rewrite decide_True. Qed.

(** The loop on a path that addresses a substructure: it ends with
    [is_valid] true at that substructure and logs nothing. *)
Lemma walk_descend (path : list string) (temp v : JsonData.t) (s : state) :
  descend temp path = Some v → Json.walk temp path s = (Ok (true, v), s).
Proof.
  revert temp. induction path as [|item rest IH]; intros temp; cbn.
  - by intros [= ->].
  - destruct (step_of item) as [[n|k]|] eqn:Hstep; [| |by destruct temp].
    + apply step_of_Index in Hstep as (Hpre & z & Hint & Hz & ->).
      destruct temp as [| | | | |items|]; try done.
      destruct (items !! Z.to_nat z) as [v'|] eqn:Hit; [|done].
      intros Hd. rewrite Hpre, Hint. cbn.
      pose proof (lookup_lt_Some _ _ _ Hit) as Hlen.
      assert (Hlt : (z <? Z.of_nat (length items))%Z = true) by (apply Z.ltb_lt; lia).
      rewrite Hlt. run. cbn.
      rewrite index_nonneg by lia. rewrite Hit.
      by apply IH.
    + apply step_of_Key in Hstep as (Hpre & ->).
      destruct temp as [| | | | | |members]; try done.
      destruct (JsonData.lookup item members) as [v'|] eqn:Hlk; [|done].
      intros Hd. rewrite Hpre. run. cbn. rewrite Hlk. cbn.
      by apply IH.
Qed.

(** The loop on a path that references a missing key or an index out of
    range: it breaks with [is_valid] false after one warning, and raises
    nothing. *)
Lemma walk_misses (path : list string) (temp : JsonData.t) (s : state) :
  misses temp path = true →
  ∃ temp' w,
    Json.walk temp path s = (Ok (false, temp'), add_log w s) ∧
    log_level w = WARNING.
Proof.
  revert temp. induction path as [|item rest IH]; intros temp; cbn; [done|].
  destruct (step_of item) as [[n|k]|] eqn:Hstep; [| |by destruct temp].
  - apply step_of_Index in Hstep as (Hpre & z & Hint & Hz & ->).
    destruct temp as [| | | | |items|]; try done.
    rewrite Hpre, Hint. cbn.
    destruct (items !! Z.to_nat z) as [v'|] eqn:Hit.
    + intros Hm. pose proof (lookup_lt_Some _ _ _ Hit) as Hlen.
      assert (Hlt : (z <? Z.of_nat (length items))%Z = true) by (apply Z.ltb_lt; lia).
      rewrite Hlt. run. cbn. rewrite index_nonneg by lia. rewrite Hit.
      by apply IH.
    + intros _. apply lookup_ge_None in Hit.
      assert (Hge : (z <? Z.of_nat (length items))%Z = false) by (apply Z.ltb_ge; lia).
      rewrite Hge. run. eauto.
  - apply step_of_Key in Hstep as (Hpre & ->).
    destruct temp as [| | | | | |members]; try done.
    rewrite Hpre. run. cbn.
    destruct (JsonData.lookup item members) as [v'|] eqn:Hlk.
    + intros Hm. cbn. by apply IH.
    + intros _. cbn. eauto.
Qed.

(** Outside these two cases the loop can raise: a key step on a number, a
    boolean or [null] is a TypeError, and an index below [-len] is an
    IndexError, since [len(temp) > index] holds for every negative index. *)
Lemma walk_key_on_scalar (temp : JsonData.t) (item : string)
    (rest : list string) (s : state) :
  Py.startswith item "[" = false →
  JsonData.len temp = None →
  Json.walk temp (item :: rest) s = (Raise TypeError, s).
Proof.
  intros Hpre Hlen. cbn. rewrite Hpre. run.
  by destruct temp.
Qed.

Lemma walk_index_below (items : list JsonData.t) (item : string) (z : Z)
    (rest : list string) (s : state) :
  Py.startswith item "[" = true →
  Py.int (Py.strip "[]" item) = Some z →
  (z < - Z.of_nat (length items))%Z →
  Json.walk (JsonData.JArray items) (item :: rest) s = (Raise IndexError, s).
Proof.
  intros Hpre Hint Hz. cbn. rewrite Hpre, Hint. cbn.
  assert (Hlt : (z <? Z.of_nat (length items))%Z = true) by (apply Z.ltb_lt; lia).
  rewrite Hlt. run. cbn. unfold Py.index.
  rewrite decide_False by lia. by rewrite decide_False by lia.
Qed.

Section Json_plugin.

Context {L : Libs}.


(** C2: on a well-formed document, when the parsed path references a key
    that the current object lacks or an index out of the range of the
    current array, [extract_json_field] raises nothing: it logs one
    warning, sets the value of the plugin to [None] and returns [None];
    so does the extraction from a response with that body. *)
Theorem extract_json_field_missing (self : ref) (t extract : string)
    (data : JsonData.t) (s : state) :
  json_loads t = Some data →
  inst (objs s self) = IsJson extract →
  misses data (parse_json_filter extract) = true →
  ∃ w,
    log_level w = WARNING ∧
    Json.extract_json_field self (ArgText t) s =
      (Ok None, assign self None (add_log w s)) ∧
    ∀ r, text r = t →
      Json.extract_json_from_response self (ArgResponse r) s =
        (Ok None, assign self None (add_log w s)).
Proof.
  intros Hload Hinst Hmiss.
  destruct (walk_misses _ _ s Hmiss) as (temp' & w & Hwalk & Hw).
  assert (Hfield : Json.extract_json_field self (ArgText t) s =
                     (Ok None, assign self None (add_log w s))).
  { unfold Json.extract_json_field. rewrite Hload. run. rewrite Hinst.
    rewrite Hwalk. by rewrite value_assign. }
  exists w. split; [done|]. split; [done|].
  intros r <-. exact Hfield.
Qed.

Lemma extract_json_field_found (self : ref) (t extract : string)
    (data v : JsonData.t) (s : state) :
  json_loads t = Some data →
  inst (objs s self) = IsJson extract →
  descend data (parse_json_filter extract) = Some v →
  Json.extract_json_field self (ArgText t) s =
    (Ok (Some (JsonData.str v)),
     add_log (found_record (name (objs s self)) v)
       (assign self (Some (JsonData.str v)) s)).
Proof.
  intros Hload Hinst Hdesc.
  unfold Json.extract_json_field. rewrite Hload. run. rewrite Hinst.
  rewrite (walk_descend _ _ _ s Hdesc).
  rewrite objs_add_log, !objs_assign_eq. done.
Qed.

(** X23: on a well-formed document and a path that addresses a
    substructure, the extraction returns [str] of that substructure,
    Python's stringification: a string as its text, anything else as its
    [repr].  The two functions a Json plugin can hold agree:
    [extract_json_from_response], called with a response of that body,
    and [extract_json_field], called with that text, return and store the
    same string. *)
Theorem extract_json_field_str (a b : ref) (t extract : string)
    (data v : JsonData.t) (r : Response) (s : state) :
  json_loads t = Some data →
  descend data (parse_json_filter extract) = Some v →
  inst (objs s a) = IsJson extract →
  function (objs s a) = Some F_extract_json_from_response →
  inst (objs s b) = IsJson extract →
  function (objs s b) = Some F_extract_json_field →
  text r = t →
  Plugin.call a (function (objs s a)) [ArgResponse r] s =
    (Ok (Some (JsonData.str v)),
     add_log (found_record (name (objs s a)) v)
       (assign a (Some (JsonData.str v)) s)) ∧
  Plugin.call b (function (objs s b)) [ArgText t] s =
    (Ok (Some (JsonData.str v)),
     add_log (found_record (name (objs s b)) v)
       (assign b (Some (JsonData.str v)) s)).
Proof.
  intros Hload Hdesc Hia Hfa Hib Hfb <-. split.
  - rewrite Hfa. cbn. by apply extract_json_field_found with extract data.
  - rewrite Hfb. cbn. by apply extract_json_field_found with extract data.
Qed.

(** [Json.from_plugin] makes a plugin whose function is
    [extract_json_field]; the constructor makes one whose function is
    [extract_json_from_response]. *)
Lemma Json_from_plugin_obj (plugin : ref) (nm extract : string) (s : state) :
  ∃ s', Json.from_plugin plugin nm extract s = (Ok (next s), s') ∧
        inst (objs s' (next s)) = IsJson extract ∧
        function (objs s' (next s)) = Some F_extract_json_field ∧
        flags (objs s' (next s)) = Base.DEPENDS_ON_OTHER_PLUGINS ∧
        plugins (objs s' (next s)) = [plugin].
Proof.
  eexists. split; [reflexivity|]. cbn. by rewrite !decide_True.
Qed.

(** [get_value] gives the function of such a plugin no argument, and
    [extract_value_from_response] gives it the response, not a text: both
    end in TypeError.  The text has to come from the caller. *)
Lemma Json_from_plugin_not_resolved (self : ref)
    (userdata : gmap string string) (response : option Response) (s : state) :
  function (objs s self) = Some F_extract_json_field →
  flags (objs s self) = Base.DEPENDS_ON_OTHER_PLUGINS →
  Plugin.get_value self userdata s = (Raise TypeError, s) ∧
  Plugin.extract_value_from_response self response s = (Raise TypeError, s).
Proof.
  intros Hfun Hflags. split.
  - rewrite get_value_plain.
    + by rewrite Hfun.
    + unfold Base.needs_response. by rewrite Hflags.
    + unfold Base.needs_userdata. by rewrite Hflags.
  - unfold Plugin.extract_value_from_response. run. rewrite Hfun. cbn.
    by destruct response.
Qed.

End Json_plugin.

(** Where Python's [str] and the specification's forms agree: strings and
    integers. *)
Lemma str_plain_text (v : JsonData.t) :
  match v with
  | JsonData.JString _ | JsonData.JInt _ => JsonData.str v = JsonData.plain_text v
  | _ => True
  end.
Proof. by destruct v. Qed.

(** The forms [str] gives the other values. *)
Lemma str_forms :
  JsonData.str JsonData.JNull = "None" ∧
  JsonData.str (JsonData.JBool true) = "True" ∧
  JsonData.str (JsonData.JBool false) = "False" ∧
  (∀ items, JsonData.str (JsonData.JArray items) =
              "[" +:+ Py.join ", " (map JsonData.repr items) +:+ "]") ∧
  (∀ members, JsonData.str (JsonData.JObject members) =
     "{" +:+ Py.join ", "
               (map (fun kv => JsonData.repr_str (fst kv) +:+ ": " +:+
                                 JsonData.repr (snd kv)) members) +:+ "}").
Proof. done. Qed.

Section Regex_and_Html.

Context {L : Libs}.

(** *** Regex.extract_regex *)


(** A match: the method stores and returns the group [extract] selects in
    [groups()] of the first match, counted from 0. *)
Lemma extract_regex_match (self : ref) (regex : string) (extract : Z)
    (r : Response) (groups : list (option string)) (g : option string) (s : state) :
  inst (objs s self) = IsRegex regex extract →
  re_search regex (text r) = re_match groups →
  Py.index groups extract = Some g →
  Regex.extract_regex self (ArgResponse r) s =
    (Ok g, add_log (regex_found (name (objs s self)) g) (assign self g s)).
Proof.
  intros Hinst Hsearch Hg. unfold Regex.extract_regex. run.
  rewrite Hinst, Hsearch, Hg.
  by rewrite objs_add_log, !objs_assign_eq.
Qed.

(** A match without the selected group: IndexError. *)
Lemma extract_regex_no_group (self : ref) (regex : string) (extract : Z)
    (r : Response) (groups : list (option string)) (s : state) :
  inst (objs s self) = IsRegex regex extract →
  re_search regex (text r) = re_match groups →
  Py.index groups extract = None →
  Regex.extract_regex self (ArgResponse r) s = (Raise IndexError, s).
Proof.
  intros Hinst Hsearch Hg. unfold Regex.extract_regex. run.
  by rewrite Hinst, Hsearch, Hg.
Qed.

(** *** Html.extract_html_tag *)

Lemma scanned_cons (self : ref) (attributes : gmap string string)
    (extract : string) (item : Tag) (rest : list Tag) (s : state) :
  scanned self attributes extract (item :: rest) s =
    scanned self attributes extract rest
      (if match_tag item attributes then assign self (attrs item !! extract) s
       else s).
Proof. reflexivity. Qed.

Lemma scan_scanned (self : ref) (attributes : gmap string string)
    (extract : string) (matches : list Tag) (s : state) :
  Html.scan self attributes extract matches s =
    (Ok tt, scanned self attributes extract matches s).
Proof.
  revert s. induction matches as [|item rest IH]; intros s; [done|].
  rewrite scanned_cons. cbn. run.
  destruct (match_tag item attributes); cbn; apply IH.
Qed.

Lemma scanned_app (self : ref) (attributes : gmap string string)
    (extract : string) (l1 l2 : list Tag) (s : state) :
  scanned self attributes extract (l1 ++ l2) s =
    scanned self attributes extract l2 (scanned self attributes extract l1 s).
Proof. unfold scanned. by rewrite foldl_app. Qed.

(** The loop touches the value of [self] only, and the log not at all. *)
Lemma scanned_frame (self : ref) (attributes : gmap string string)
    (extract : string) (matches : list Tag) (s : state) :
  log (scanned self attributes extract matches s) = log s ∧
  name (objs (scanned self attributes extract matches s) self) = name (objs s self) ∧
  ∀ r, r ≠ self → objs (scanned self attributes extract matches s) r = objs s r.
Proof.
  revert s. induction matches as [|item rest IH]; intros s; [done|].
  rewrite scanned_cons. destruct (match_tag item attributes); [|apply IH].
  destruct (IH (assign self (attrs item !! extract) s)) as (Hl & Hn & Ho).
  rewrite Hl, Hn, log_assign. split; [done|]. split.
  - apply name_assign.
  - intros r Hr. rewrite Ho by done. by apply objs_assign_ne.
Qed.

(** Last match wins: after the loop the value is the attribute [extract]
    of the last element that satisfies the constraints, [None] when that
    element lacks the attribute; with no such element the value is the one
    the plugin had. *)
Lemma scanned_value (self : ref) (attributes : gmap string string)
    (extract : string) (matches : list Tag) (s : state) :
  value (objs (scanned self attributes extract matches s) self) =
    match last_match attributes matches with
    | Some item => attrs item !! extract
    | None => value (objs s self)
    end.
Proof.
  induction matches as [|item rest IH] using rev_ind; [done|].
  rewrite scanned_app, scanned_cons. unfold last_match in *.
  rewrite filter_app, filter_cons, filter_nil.
  destruct (match_tag item attributes) eqn:Hm.
  - rewrite decide_True by done. rewrite last_snoc. apply value_assign.
  - rewrite decide_False by done. rewrite app_nil_r. apply IH.
Qed.

Lemma extract_html_tag_spec (self : ref) (tag : string)
    (attributes : gmap string string) (extract : string) (r : Response) (s : state) :
  inst (objs s self) = IsHtml tag attributes extract →
  let s' := scanned self attributes extract (find_all (text r) tag) s in
  let v := match last_match attributes (find_all (text r) tag) with
           | Some item => attrs item !! extract
           | None => value (objs s self)
           end in
  Html.extract_html_tag self (ArgResponse r) s =
    (Ok v, add_log (html_filter (name (objs s self)) v) s') ∧
  value (objs s' self) = v.
Proof.
  intros Hinst s' v.
  assert (Hv : value (objs s' self) = v) by apply scanned_value.
  split; [|done].
  unfold Html.extract_html_tag. run. rewrite Hinst. rewrite scan_scanned.
  fold s'. rewrite Hv.
  destruct (scanned_frame self attributes extract (find_all (text r) tag) s)
    as (_ & Hname & _).
  fold s' in Hname. by rewrite Hname.
Qed.

End Regex_and_Html.
Section Post_response.

Context {L : Libs}.

(** *** The cookie jar *)



(** *** The loop of Json.extract_json_field and the store *)

(** The result of the loop and the records it logs do not depend on the
    store, and the loop changes nothing but the log. *)
Lemma walk_pure (path : list string) (temp : JsonData.t) :
  ∃ res l, ∀ s, Json.walk temp path s = (res, add_logs l s).
Proof.
  revert temp. induction path as [|item rest IH]; intros temp.
  - by exists (Ok (true, temp)), [].
  - cbn. destruct (Py.startswith item "[").
    + destruct (Py.int _) as [z|]; [|by exists (Raise ValueError), []].
      destruct (JsonData.len temp) as [n|]; [|by exists (Raise TypeError), []].
      destruct (z <? n)%Z.
      * run. destruct (Json.getitem_int temp z) as [t'|e].
        -- apply IH.
        -- by exists (Raise e), [].
      * by exists (Ok (false, temp)), [index_not_found].
    + run. destruct (Json.contains temp item) as [[|]|e].
      * destruct (Json.getitem_str temp item) as [t'|e].
        -- apply IH.
        -- by exists (Raise e), [].
      * by exists (Ok (false, temp)), [key_not_found item].
      * by exists (Raise e), [].
Qed.


(** *** What a call of the stored function does to its plugin *)


(** *** Plugin.extract_value_from_response *)

Lemma extract_value_from_response_unfold (self : ref) (response : option Response)
    (s : state) :
  Plugin.extract_value_from_response self response s =
    match Plugin.call self (function (objs s self))
            [Plugin.arg_of_response response] s with
    | (Ok output, s1) =>
        if Py.truthy output
        then (Ok tt, add_log (found_output (name (objs s1 self)) output)
                       (assign self output s1))
        else (Ok tt, add_log (no_output (name (objs s1 self))) s1)
    | (Raise e, s1) => (Raise e, s1)
    end.
Proof.
  unfold Plugin.extract_value_from_response. run.
  destruct (Plugin.call _ _ _ s) as [[output|e] s1]; [|done].
  destruct (Py.truthy output); [|done].
  cbn. run. by rewrite !objs_assign_eq.
Qed.



End Post_response.

Section Composition.

Context {L : Libs}.

(** *** Alter *)

Lemma index_0 {A : Type} (x : A) (l : list A) : Py.index (x :: l) 0 = Some x.
Proof. unfold Py.index. rewrite decide_True; [done|]. cbn [length]. lia. Qed.

Lemma process_value_nonempty (self source : ref) (rest : list ref)
    (f : string → outcome (option string)) (v : string) (s : state) :
  inst (objs s self) = IsAlter f →
  plugins (objs s self) = source :: rest →
  value (objs s source) = Some v → v ≠ "" →
  Alter.process_value self s =
    match f v with
    | Ok v' => (Ok v', assign self v' s)
    | Raise e => (Raise e, s)
    end.
Proof.
  intros Hinst Hpl Hv Hne. unfold Alter.process_value. run.
  rewrite Hpl, index_0, Hv, (truthy_nonempty v Hne), Hinst.
  destruct (f v) as [v'|e]; [|done]. by rewrite value_assign.
Qed.

Lemma process_value_empty (self source : ref) (rest : list ref) (s : state) :
  plugins (objs s self) = source :: rest →
  value (objs s source) = None ∨ value (objs s source) = Some "" →
  Alter.process_value self s = (Ok (value (objs s self)), s).
Proof.
  intros Hpl Hv. unfold Alter.process_value. run.
  rewrite Hpl, index_0. by destruct Hv as [-> | ->].
Qed.

(** X24: when the value of the source plugin is a non-empty string, an
    Alter plugin calls its function on it, and stores and returns what the
    function returns; an exception of the function goes through.  When
    the source has no value, or the empty string, the function is not
    called, whatever it would do: [get_value] returns the value the Alter
    plugin holds and changes nothing.  With the function of
    [Alter.prepend] the result is the prefix followed by the value. *)
Theorem Alter_get_value (self source : ref) (rest : list ref)
    (f : string → outcome (option string)) (userdata : gmap string string)
    (s : state) :
  inst (objs s self) = IsAlter f →
  plugins (objs s self) = source :: rest →
  function (objs s self) = Some F_process_value →
  flags (objs s self) = Base.DEPENDS_ON_OTHER_PLUGINS →
  (∀ v, value (objs s source) = Some v → v ≠ "" →
     Plugin.get_value self userdata s =
       match f v with
       | Ok v' => (Ok v', assign self v' (assign self v' s))
       | Raise e => (Raise e, s)
       end) ∧
  (value (objs s source) = None ∨ value (objs s source) = Some "" →
     Plugin.get_value self userdata s =
       (Ok (value (objs s self)), assign self (value (objs s self)) s)) ∧
  (∀ pre v, f = (fun v => Ok (Some (pre +:+ v))) →
     value (objs s source) = Some v → v ≠ "" →
     fst (Plugin.get_value self userdata s) = Ok (Some (pre +:+ v))).
Proof.
  intros Hinst Hpl Hfun Hflags.
  assert (Hget : Plugin.get_value self userdata s =
                   match Alter.process_value self s with
                   | (Ok v, s') => (Ok v, assign self v s')
                   | (Raise e, s') => (Raise e, s')
                   end).
  { rewrite get_value_plain.
    - by rewrite Hfun.
    - unfold Base.needs_response. by rewrite Hflags.
    - unfold Base.needs_userdata. by rewrite Hflags. }
  split; [|split].
  - intros v Hv Hne. rewrite Hget.
    rewrite (process_value_nonempty _ _ _ _ _ _ Hinst Hpl Hv Hne).
    by destruct (f v).
  - intros Hv. rewrite Hget.
    by rewrite (process_value_empty _ _ _ _ Hpl Hv).
  - intros pre v -> Hv Hne. rewrite Hget.
    by rewrite (process_value_nonempty _ _ _ _ _ _ Hinst Hpl Hv Hne).
Qed.

(** The object [Alter.prepend] makes. *)
Lemma Alter_prepend_obj (plugin : ref) (pre : string) (s : state) :
  ∃ s', Alter.prepend plugin pre s = (Ok (next s), s') ∧
        inst (objs s' (next s)) = IsAlter (fun v => Ok (Some (pre +:+ v))) ∧
        plugins (objs s' (next s)) = [plugin] ∧
        function (objs s' (next s)) = Some F_process_value ∧
        flags (objs s' (next s)) = Base.DEPENDS_ON_OTHER_PLUGINS ∧
        name (objs s' (next s)) = name (objs s plugin) ∧
        value (objs s' (next s)) = value (objs s plugin) ∧
        ∀ r, r ≠ next s → objs s' r = objs s r.
Proof.
  eexists. split; [reflexivity|]. cbn. rewrite !decide_True by done. cbn.
  repeat split. intros r Hr. by rewrite !decide_False.
Qed.

(** *** Header.from_plugin and Cookie.from_plugin *)

Lemma get_value_from_plugin (h n : ref) (userdata : gmap string string) (s : state) :
  function (objs s h) = Some (F_from_plugin n) →
  flags (objs s h) = 0%Z →
  Plugin.get_value h userdata s =
    (Ok (nonempty (value (objs s n))), assign h (nonempty (value (objs s n))) s).
Proof.
  intros Hfun Hflags. rewrite get_value_plain.
  - rewrite Hfun. cbn. unfold Lambda.from_plugin, nonempty. run.
    by destruct (Py.truthy (value (objs s n))).
  - unfold Base.needs_response. by rewrite Hflags.
  - unfold Base.needs_userdata. by rewrite Hflags.
Qed.

(** C9, as the code has it: a Header or a Cookie made by [from_plugin]
    from the plugin [n] holds a function that reads [n] when it is called.
    In any later store in which the new object still has that function and
    its flags, [get_value] stores and returns the value [n] has then, when
    that value is a non-empty string, and [None] when [n] has no value or
    the empty string: not the value [n] had at construction. *)
Theorem from_plugin_reads_current_value (n : ref) (nm : string) (s : state)
    (mk : ref → string → M ref) :
  mk = Header.from_plugin ∨ mk = Cookie.from_plugin →
  ∃ s1,
    mk n nm s = (Ok (next s), s1) ∧
    name (objs s1 (next s)) = nm ∧
    ∀ s2 userdata,
      function (objs s2 (next s)) = function (objs s1 (next s)) →
      flags (objs s2 (next s)) = flags (objs s1 (next s)) →
      Plugin.get_value (next s) userdata s2 =
        (Ok (nonempty (value (objs s2 n))),
         assign (next s) (nonempty (value (objs s2 n))) s2).
Proof.
  intros [-> | ->]; eexists; (split; [reflexivity|]); cbn;
    rewrite !decide_True by done; cbn; (split; [done|]);
    intros s2 userdata Hfun Hflags; by apply get_value_from_plugin.
Qed.

End Composition.

(** * The properties at concrete inputs *)

Section Examples.

#[local] Existing Instance Demo.libs.
#[local] Transparent assign add_log.

(** C1, where the code departs from its docstring: a Regex plugin that
    holds ["abc"] from an earlier response is run on a body its pattern
    does not match; [extract_regex] returns ["abc"], not [None]. *)
Theorem Regex_no_match_returns_old_value :
  Demo.result Demo.regex_reused = Ok (Some "abc").
Proof. vm_compute. reflexivity. Qed.

(** C4, where the code departs from [extract_from_userdata]: the name of the
    Variable is no key of the user data, and [get_value] raises KeyError. *)
Theorem Variable_missing_key_raises :
  Demo.result Demo.variable_missing = Raise KeyError.
Proof. vm_compute. reflexivity. Qed.

(** C5, where the code departs from its docstring: an Html plugin that
    holds ["tok2"], the attribute of the last of two matching elements, is
    run on markup without a matching element; [extract_html_tag] returns
    ["tok2"], not [None], and resolving the plugin on that markup logs no
    warning. *)
Theorem Html_no_match_returns_old_value :
  Demo.result Demo.html_reused = Ok (Some "tok2") ∧
  value (objs (Demo.after Demo.html_resolved_twice) 0) = Some "tok2" ∧
  log_level <$> log (Demo.after Demo.html_resolved_twice) =
    [DEBUG; DEBUG; DEBUG; DEBUG].
Proof. vm_compute. done. Qed.


(** C6, where the code departs from its docstring: a plugin made by
    [Json.from_plugin] from a plugin whose value is the document
    [[10, 20]] is never given that value.  [get_value] calls its function
    without argument and [extract_value_from_response] calls it with the
    response: both raise TypeError, where the field [[1]] of the value is
    ["20"], which the function returns when the caller passes it the
    value by hand. *)
Theorem Json_from_plugin_not_driven :
  value (objs (Demo.after Demo.json_chained) 0) = Some "[10, 20]" ∧
  Demo.result Demo.json_chained = Raise TypeError ∧
  Demo.result Demo.json_chained_response = Raise TypeError ∧
  Demo.result Demo.json_chained_by_hand = Ok (Some "20").
Proof. vm_compute. done. Qed.

(** The string the extraction returns is Python's [str], not the textual
    JSON form: the path [[0]] addresses the array [[true, null]], whose
    JSON form is ["[true, null]"]; the extraction returns
    ["[True, None]"]. *)
Lemma extract_json_field_not_json_text :
  descend (JsonData.JArray [JsonData.JArray [JsonData.JBool true; JsonData.JNull]])
    (parse_json_filter "[0]") =
    Some (JsonData.JArray [JsonData.JBool true; JsonData.JNull]) ∧
  JsonData.dumps (JsonData.JArray [JsonData.JBool true; JsonData.JNull]) =
    "[true, null]" ∧
  Demo.result Demo.json_array = Ok (Some "[True, None]") ∧
  Demo.result Demo.json_array ≠
    Ok (Some (JsonData.dumps (JsonData.JArray [JsonData.JBool true; JsonData.JNull]))).
Proof. vm_compute. done. Qed.

(** C8, where the code departs from its docstring: the source has lost
    its value, and the Alter plugin is not left without value.
    Constructed while the source held ["token"], it returns ["token"],
    which its function never processed; resolved once before, it returns
    ["X-token"], made from a value the source no longer has. *)
Theorem Alter_absent_source_returns_old_value :
  Demo.result Demo.alter_cleared = Ok (Some "token") ∧
  value (objs (Demo.after Demo.alter_cleared) 0) = None ∧
  Demo.result Demo.alter_stale = Ok (Some "X-token") ∧
  value (objs (Demo.after Demo.alter_stale) 0) = None.
Proof. vm_compute. done. Qed.

(** The guard of [process_value] is Python's truth value: a source whose
    value is the empty string is not processed either. *)
Lemma Alter_empty_source :
  Demo.result Demo.alter_empty = Ok None ∧
  Demo.result Demo.alter_empty ≠ Ok (Some "X-").
Proof. vm_compute. done. Qed.

(** C9 fails as stated: the current value of [n] is the empty string, and
    the Header made from [n] resolves to [None], not to that value. *)
Lemma from_plugin_empty_value :
  value (objs (Demo.after Demo.header_empty) 0) = Some "" ∧
  Demo.result Demo.header_empty = Ok None ∧
  Demo.result Demo.header_empty ≠ Ok (value (objs (Demo.after Demo.header_empty) 0)).
Proof. vm_compute. done. Qed.

(** *** The hypotheses of the theorems hold at concrete inputs *)

Lemma get_value_needs_response_witness :
  Base.needs_response (objs Demo.with_regex 0) = true ∧
  Plugin.get_value 0 ∅ Demo.with_regex = (Ok None, Demo.with_regex).
Proof.
  split; [reflexivity|].
  apply (get_value_needs_response 0 ∅ Demo.with_regex). reflexivity.
Defined.

Lemma Combine_concatenates_witness :
  inst (objs Demo.with_combine 1) = IsCombine [Lit "Bearer "; Obj 0] ∧
  Plugin.get_value 1 ∅ Demo.with_combine =
    (Ok (Some "Bearer abc123"), assign 1 (Some "Bearer abc123") Demo.with_combine).
Proof.
  split; [reflexivity|].
  apply (Combine_concatenates 1 ∅ Demo.with_combine [Lit "Bearer "; Obj 0]);
    reflexivity.
Defined.

Lemma extract_json_field_missing_witness :
  misses (JsonData.JObject []) (parse_json_filter "a") = true ∧
  ∃ w,
    log_level w = WARNING ∧
    Json.extract_json_field 0 (ArgText "{}") Demo.with_json =
      (Ok None, assign 0 None (add_log w Demo.with_json)) ∧
    ∀ r, text r = "{}" →
      Json.extract_json_from_response 0 (ArgResponse r) Demo.with_json =
        (Ok None, assign 0 None (add_log w Demo.with_json)).
Proof.
  split; [reflexivity|].
  apply (extract_json_field_missing 0 "{}" "a" (JsonData.JObject []) Demo.with_json);
    reflexivity.
Defined.

Lemma extract_json_field_str_witness :
  descend (JsonData.JArray [JsonData.JArray [JsonData.JBool true; JsonData.JNull]])
    (parse_json_filter "[0]") =
    Some (JsonData.JArray [JsonData.JBool true; JsonData.JNull]) ∧
  fst (Plugin.call 0 (function (objs Demo.with_two_json 0))
         [ArgResponse (Demo.response "[[true, null]]")] Demo.with_two_json) =
    Ok (Some "[True, None]") ∧
  fst (Plugin.call 1 (function (objs Demo.with_two_json 1))
         [ArgText "[[true, null]]"] Demo.with_two_json) =
    Ok (Some "[True, None]").
Proof.
  split; [reflexivity|].
  destruct (extract_json_field_str 0 1 "[[true, null]]" "[0]"
              (JsonData.JArray [JsonData.JArray [JsonData.JBool true; JsonData.JNull]])
              (JsonData.JArray [JsonData.JBool true; JsonData.JNull])
              (Demo.response "[[true, null]]") Demo.with_two_json) as [Ha Hb];
    [reflexivity..|].
  rewrite Ha, Hb. split; reflexivity.
Defined.


Lemma Alter_get_value_witness :
  value (objs Demo.with_alter 0) = Some "token" ∧
  fst (Plugin.get_value 1 ∅ Demo.with_alter) = Ok (Some "X-token").
Proof.
  split; [reflexivity|].
  destruct (Alter_get_value 1 0 [] (fun v => Ok (Some ("X-" +:+ v))) ∅
              Demo.with_alter) as (_ & _ & Hpre); [reflexivity..|].
  apply (Hpre "X-" "token"); [reflexivity | reflexivity | discriminate].
Defined.

Lemma from_plugin_reads_current_value_witness :
  ∃ s1,
    Header.from_plugin 0 "Auth" Demo.with_empty = (Ok 1, s1) ∧
    Plugin.get_value 1 ∅ (assign 0 (Some "abc") s1) =
      (Ok (Some "abc"), assign 1 (Some "abc") (assign 0 (Some "abc") s1)).
Proof.
  destruct (from_plugin_reads_current_value 0 "Auth" Demo.with_empty
              Header.from_plugin (or_introl eq_refl)) as (s1 & Hmk & _ & Hget).
  exists s1. split; [exact Hmk|].
  apply (Hget (assign 0 (Some "abc") s1) ∅); reflexivity.
Defined.

End Examples.

(** * Further properties of the code *)

Section More_resolution.

Context {L : Libs}.

Lemma get_value_needs_response_flag (self : ref)
    (userdata : gmap string string) (s : state) :
  Base.needs_response (objs s self) = true →
  Plugin.get_value self userdata s = (Ok (value (objs s self)), s).
Proof.
  intros Hflag. unfold Plugin.get_value. run. by rewrite Hflag.
Qed.

(** X2: a plugin of the base class constructed without function.  With
    NEEDS_RESPONSE, [get_value] returns its value and calls nothing.
    Otherwise, with NEEDS_USERDATA it has [extract_from_userdata]:
    [get_value] returns the entry of the user data under the name of the
    plugin and stores it, and when there is no such entry it raises
    nothing and returns the value the plugin already has.  With neither
    flag the function is [None], and [get_value] raises TypeError. *)
Theorem Plugin_without_function (self : ref) (nm : string) (fl : Z)
    (v0 : option string) (userdata : gmap string string) (s : state) :
  objs s self = Base.init nm None fl v0 IsPlugin →
  Plugin.get_value self userdata s =
    if Base.has_flag fl Base.NEEDS_RESPONSE then (Ok v0, s)
    else if Base.has_flag fl Base.NEEDS_USERDATA then
      match userdata !! nm with
      | Some v => (Ok (Some v), assign self (Some v) (assign self (Some v) s))
      | None => (Ok v0, assign self v0 s)
      end
    else (Raise TypeError, s).
Proof.
  intros Hobj.
  destruct (Base.has_flag fl Base.NEEDS_RESPONSE) eqn:Hr.
  - rewrite get_value_needs_response_flag; by rewrite Hobj.
  - destruct (Base.has_flag fl Base.NEEDS_USERDATA) eqn:Hu.
    + rewrite get_value_userdata by (by rewrite Hobj).
      rewrite Hobj.
      change (function (Base.init nm None fl v0 IsPlugin))
        with (if Base.has_flag fl Base.NEEDS_USERDATA
              then Some F_extract_from_userdata else None).
      rewrite Hu. cbn. unfold Base.extract_from_userdata. run. rewrite Hobj. cbn.
      destruct (userdata !! nm) as [v|]; cbn.
      * by rewrite value_assign.
      * by rewrite Hobj.
    + rewrite get_value_plain by (by rewrite Hobj).
      rewrite Hobj.
      change (function (Base.init nm None fl v0 IsPlugin))
        with (if Base.has_flag fl Base.NEEDS_USERDATA
              then Some F_extract_from_userdata else None).
      by rewrite Hu.
Qed.

(** X3: a pattern without capture groups makes [extract_regex] raise
    IndexError on every response it matches, whatever the index
    [extract]; the value and the log stay as they were, and
    [extract_value_from_response] raises the same. *)
Theorem Regex_without_groups_raises (self : ref) (regex : string) (extract : Z)
    (r : Response) (s : state) :
  function (objs s self) = Some F_extract_regex →
  inst (objs s self) = IsRegex regex extract →
  re_search regex (text r) = re_match [] →
  Regex.extract_regex self (ArgResponse r) s = (Raise IndexError, s) ∧
  Plugin.extract_value_from_response self (Some r) s = (Raise IndexError, s).
Proof.
  intros Hfun Hinst Hsearch.
  assert (Hidx : Py.index ([] : list (option string)) extract = None).
  { unfold Py.index. cbn. repeat case_decide; (done || lia). }
  pose proof (extract_regex_no_group self regex extract r [] s Hinst Hsearch Hidx)
    as Hraise.
  split; [done|].
  rewrite extract_value_from_response_unfold, Hfun. cbn. by rewrite Hraise.
Qed.

(** X4: on a match, resolving a Regex plugin against the response always
    overwrites its value with the selected group: also with [None], when
    the group took no part in the match, which clears an older value.
    Two records are logged: the one of [extract_regex], then the debug or
    the warning record of [extract_value_from_response].  No other plugin
    changes. *)
Theorem Regex_match_overwrites (self : ref) (regex : string) (extract : Z)
    (r : Response) (groups : list (option string)) (g : option string)
    (s : state) :
  function (objs s self) = Some F_extract_regex →
  inst (objs s self) = IsRegex regex extract →
  re_search regex (text r) = re_match groups →
  Py.index groups extract = Some g →
  ∃ s',
    Plugin.extract_value_from_response self (Some r) s = (Ok tt, s') ∧
    value (objs s' self) = g ∧
    log s' = log s ++
      [regex_found (name (objs s self)) g;
       if Py.truthy g then found_output (name (objs s self)) g
       else no_output (name (objs s self))] ∧
    ∀ r', r' ≠ self → objs s' r' = objs s r'.
Proof.
  intros Hfun Hinst Hsearch Hg.
  rewrite extract_value_from_response_unfold, Hfun. cbn.
  rewrite (extract_regex_match self regex extract r groups g s Hinst Hsearch Hg).
  rewrite objs_add_log, name_assign.
  destruct (Py.truthy g); eexists; (split; [done|]).
  - rewrite objs_add_log, value_assign, log_add_log, log_assign, log_add_log,
      log_assign, <- app_assoc.
    repeat split. intros r' Hr.
    by rewrite objs_add_log, objs_assign_ne, objs_add_log, objs_assign_ne.
  - rewrite !objs_add_log, value_assign, !log_add_log, log_assign, <- app_assoc.
    repeat split. intros r' Hr.
    by rewrite !objs_add_log, objs_assign_ne.
Qed.

(** X5: the index [extract] follows Python's indexing of the tuple
    [groups()]: [-1] selects the last capture group. *)
Theorem Regex_extract_last_group (self : ref) (regex : string) (r : Response)
    (groups : list (option string)) (g : option string) (s : state) :
  inst (objs s self) = IsRegex regex (-1) →
  re_search regex (text r) = re_match groups →
  last groups = Some g →
  Regex.extract_regex self (ArgResponse r) s =
    (Ok g, add_log (regex_found (name (objs s self)) g) (assign self g s)).
Proof.
  intros Hinst Hsearch Hlast.
  apply (extract_regex_match self regex (-1) r groups g s Hinst Hsearch).
  unfold Py.index.
  assert (Hlen : length groups ≠ 0) by (by destruct groups).
  rewrite decide_False by lia. rewrite decide_True by lia.
  rewrite last_lookup in Hlast. rewrite <- Hlast. f_equal. lia.
Qed.

(** X6: resolving an Html plugin against a response never raises.  The
    value it leaves is the attribute [extract] of the last element with
    the tag that satisfies the constraints, [None] when that element
    lacks the attribute; when no element satisfies them the value is left
    as it was.  No other plugin changes. *)
Theorem Html_resolution_last_match (self : ref) (tag : string)
    (attributes : gmap string string) (extract : string) (r : Response)
    (s : state) :
  function (objs s self) = Some F_extract_html_tag →
  inst (objs s self) = IsHtml tag attributes extract →
  ∃ s',
    Plugin.extract_value_from_response self (Some r) s = (Ok tt, s') ∧
    value (objs s' self) =
      match last_match attributes (find_all (text r) tag) with
      | Some item => attrs item !! extract
      | None => value (objs s self)
      end ∧
    ∀ r', r' ≠ self → objs s' r' = objs s r'.
Proof.
  intros Hfun Hinst.
  rewrite extract_value_from_response_unfold, Hfun. cbn.
  destruct (extract_html_tag_spec self tag attributes extract r s Hinst)
    as [Hcall Hv].
  rewrite Hcall.
  destruct (scanned_frame self attributes extract (find_all (text r) tag) s)
    as (_ & _ & Hframe).
  destruct (Py.truthy _); eexists; (split; [done|]).
  - rewrite objs_add_log, value_assign. split; [done|].
    intros r' Hr. rewrite objs_add_log, objs_assign_ne, objs_add_log by done.
    by apply Hframe.
  - rewrite !objs_add_log. split; [done|].
    intros r' Hr. rewrite !objs_add_log. by apply Hframe.
Qed.

End More_resolution.

Section More_json.

Context {L : Libs}.

(** X7: the loop of [extract_json_field] composes along a path: walking
    [p1 ++ p2] is walking [p1] and, when that ends valid, walking [p2] from
    the value reached; a break or an exception in [p1] is the result for
    the whole path. *)
Theorem walk_app (p1 p2 : list string) (temp : JsonData.t) (s : state) :
  Json.walk temp (p1 ++ p2) s =
    match Json.walk temp p1 s with
    | (Ok (true, t1), s1) => Json.walk t1 p2 s1
    | other => other
    end.
Proof.
  revert temp. induction p1 as [|item rest IH]; intros temp; [done|].
  cbn. destruct (Py.startswith item "[").
  - destruct (Py.int _) as [z|]; [|done].
    destruct (JsonData.len temp) as [n|]; [|done].
    destruct (z <? n)%Z; [|done].
    run. destruct (Json.getitem_int temp z) as [t'|e]; [|done].
    apply IH.
  - run. destruct (Json.contains temp item) as [[|]|e]; [| done..].
    destruct (Json.getitem_str temp item) as [t'|e]; [|done].
    apply IH.
Qed.

Lemma string_length_list (str : string) :
  String.length str = length (String.list_ascii_of_string str).
Proof. induction str as [|c str IH]; [done|]. cbn. by rewrite IH. Qed.

(** X8: an index step follows Python's subscription.  A negative index
    down to [-len] counts from the end of the array. *)
Theorem walk_negative_index (items : list JsonData.t) (item : string) (z : Z)
    (v : JsonData.t) (rest : list string) (s : state) :
  Py.startswith item "[" = true →
  Py.int (Py.strip "[]" item) = Some z →
  (- Z.of_nat (length items) ≤ z < 0)%Z →
  items !! Z.to_nat (Z.of_nat (length items) + z) = Some v →
  Json.walk (JsonData.JArray items) (item :: rest) s = Json.walk v rest s.
Proof.
  intros Hpre Hint Hz Hv. cbn. rewrite Hpre, Hint. cbn.
  assert (Hlt : (z <? Z.of_nat (length items))%Z = true) by (apply Z.ltb_lt; lia).
  rewrite Hlt. run. cbn. unfold Py.index.
  rewrite decide_False by lia. rewrite decide_True by lia. by rewrite Hv.
Qed.

(** X9: an index step on a string does not fail: it goes on with the
    character at that index, as a string. *)
Theorem walk_index_string (str item : string) (z : Z) (c : ascii)
    (rest : list string) (s : state) :
  Py.startswith item "[" = true →
  Py.int (Py.strip "[]" item) = Some z →
  (0 ≤ z)%Z →
  String.list_ascii_of_string str !! Z.to_nat z = Some c →
  Json.walk (JsonData.JString str) (item :: rest) s =
    Json.walk (JsonData.JString (String c "")) rest s.
Proof.
  intros Hpre Hint Hz Hc. cbn. rewrite Hpre, Hint. cbn.
  pose proof (lookup_lt_Some _ _ _ Hc) as Hlen.
  rewrite string_length_list.
  assert (Hlt : (z <? Z.of_nat (length (String.list_ascii_of_string str)))%Z = true)
    by (apply Z.ltb_lt; lia).
  rewrite Hlt. run. cbn. rewrite index_nonneg by lia. by rewrite Hc.
Qed.

(** X10: a key step never enters an array or a string.  When no element of
    the array equals the key, or the key is no substring of the string, the
    loop breaks with the warning; otherwise it raises TypeError. *)
Theorem walk_key_on_sequence (temp : JsonData.t) (item : string)
    (rest : list string) (s : state) :
  Py.startswith item "[" = false →
  (∀ items, temp = JsonData.JArray items →
     Json.walk temp (item :: rest) s =
       if existsb (JsonData.is_string item) items then (Raise TypeError, s)
       else (Ok (false, temp), add_log (key_not_found item) s)) ∧
  (∀ str, temp = JsonData.JString str →
     Json.walk temp (item :: rest) s =
       if Py.contains str item then (Raise TypeError, s)
       else (Ok (false, temp), add_log (key_not_found item) s)).
Proof.
  intros Hpre. split.
  - intros items ->. cbn. rewrite Hpre. run. cbn.
    by destruct (existsb _ items).
  - intros str ->. cbn. rewrite Hpre. run. cbn.
    by destruct (Py.contains str item).
Qed.

(** X11: [extract_json_field] forgets the value the plugin had: what it
    returns or raises is the same whatever that value was, and when it
    returns, the value it returns is the value the plugin holds
    afterwards. *)
Theorem Json_extraction_forgets (self : ref) (t : string) (old : option string)
    (s : state) :
  fst (Json.extract_json_field self (ArgText t) (assign self old s)) =
    fst (Json.extract_json_field self (ArgText t) s) ∧
  ∀ o s1, Json.extract_json_field self (ArgText t) s = (Ok o, s1) →
          value (objs s1 self) = o.
Proof.
  unfold Json.extract_json_field. destruct (json_loads t) as [data|]; [|done].
  run. rewrite objs_assign_eq.
  change (inst (with_value old (objs s self))) with (inst (objs s self)).
  destruct (inst (objs s self)) as [| | |extract| | | | | |]; try done.
  destruct (walk_pure (parse_json_filter extract) data) as (res & l & Hwalk).
  rewrite !Hwalk.
  destruct res as [[[|] temp]|e]; cbn; [| |done].
  - rewrite !objs_add_log, !value_assign. split; [done|].
    intros o s1 [= <- <-]. by rewrite objs_add_log, value_assign.
  - rewrite !value_assign. split; [done|].
    intros o s1 [= <- <-]. by rewrite value_assign.
Qed.

(** X12: a plugin made by [Json.from_plugin] cannot be resolved by the
    methods of the class: [get_value] calls its function without the text
    and [extract_value_from_response] calls it with the response, and both
    raise TypeError and leave the plugin without value. *)
Theorem Json_from_plugin_raises (plugin : ref) (nm extract : string)
    (userdata : gmap string string) (response : option Response) (s : state) :
  ∃ s1,
    Json.from_plugin plugin nm extract s = (Ok (next s), s1) ∧
    value (objs s1 (next s)) = None ∧
    Plugin.get_value (next s) userdata s1 = (Raise TypeError, s1) ∧
    Plugin.extract_value_from_response (next s) response s1 =
      (Raise TypeError, s1).
Proof.
  destruct (Json_from_plugin_obj plugin nm extract s)
    as (s1 & Hnew & _ & Hfun & Hflags & _).
  exists s1. split; [done|]. split.
  - revert Hnew. unfold Json.from_plugin, Json.new. run.
    cbv beta iota delta [alloc]. cbn. intros [= <-].
    cbn. by rewrite !decide_True.
  - by apply Json_from_plugin_not_resolved.
Qed.

End More_json.

Section More_composition.

Context {L : Libs}.

(** *** Combine *)

Lemma sum_hash_permutation (args args' : list item) :
  args ≡ₚ args' →
  foldr (fun it acc => (hash it + acc)%Z) 0%Z args =
  foldr (fun it acc => (hash it + acc)%Z) 0%Z args'.
Proof.
  induction 1 as [|x l l' _ IH|x y l|l l' l'' _ IH1 _ IH2]; cbn.
  - done.
  - by rewrite IH.
  - lia.
  - by rewrite IH1.
Qed.

(** X13: the name [Combine] derives from its arguments is the sum of their
    hashes, so it does not depend on their order: two Combine plugins over
    the same arguments in different orders get the same name. *)
Theorem Combine_name_permutation (args args' : list item) (s : state) :
  args ≡ₚ args' →
  name (objs (snd (Combine.new args s)) (next s)) =
  name (objs (snd (Combine.new args' s)) (next s)).
Proof.
  intros Hperm. unfold Combine.new. run. cbv beta iota delta [alloc]. cbn.
  rewrite !decide_True by done. cbn.
  by rewrite (sum_hash_permutation _ _ Hperm).
Qed.

Lemma foldr_append_app (l1 l2 : list string) :
  foldr String.append "" (l1 ++ l2) =
  foldr String.append "" l1 +:+ foldr String.append "" l2.
Proof.
  induction l1 as [|x l1 IH]; [done|]. cbn. by rewrite IH, append_assoc.
Qed.

Lemma elem_of_plugins_of (r : ref) (args : list item) :
  r ∈ Combine.plugins_of args ↔ Obj r ∈ args.
Proof.
  unfold Combine.plugins_of. rewrite list_elem_of_omap. split.
  - intros ([l|r'] & Hin & Heq); [done|]. by injection Heq as ->.
  - intros Hin. by exists (Obj r).
Qed.

(** Assigning to a plugin that is no argument changes no contribution. *)
Lemma contribution_assign (c : ref) (v : option string) (s : state)
    (args : list item) :
  c ∉ Combine.plugins_of args →
  map (contribution (assign c v s)) args = map (contribution s) args.
Proof.
  intros Hnot. apply map_ext_in. intros [l|r] Hin; [done|].
  cbn. rewrite objs_assign_ne; [done|].
  intros ->. apply Hnot, elem_of_plugins_of. by apply list_elem_of_In.
Qed.

(** X14: Combine plugins nest.  Once the inner plugin is resolved, an outer
    Combine that has it among its arguments concatenates to the same
    string as a Combine over the flattened arguments, provided the inner
    plugin is not among the flattened arguments itself. *)
Theorem Combine_nested (inner outer : ref) (args_in pre post : list item)
    (userdata : gmap string string) (s : state) :
  inst (objs s inner) = IsCombine args_in →
  function (objs s inner) = Some F_concatenate_values →
  flags (objs s inner) = Base.DEPENDS_ON_OTHER_PLUGINS →
  inst (objs s outer) = IsCombine (pre ++ Obj inner :: post) →
  inner ∉ Combine.plugins_of (pre ++ args_in ++ post) →
  ∃ v s1,
    Plugin.get_value inner userdata s = (Ok v, s1) ∧
    Combine.concatenate_values outer s1 =
      (Ok (Some (foldr String.append ""
                   (map (contribution s) (pre ++ args_in ++ post)))), s1).
Proof.
  intros Hin Hfun Hflags Hout Hnot.
  set (inner_text := foldr String.append "" (map (contribution s) args_in)).
  exists (Some inner_text), (assign inner (Some inner_text) s). split.
  - rewrite get_value_plain.
    + rewrite Hfun. cbn. unfold Combine.concatenate_values. run.
      rewrite Hin. by rewrite concat_spec.
    + unfold Base.needs_response. by rewrite Hflags.
    + unfold Base.needs_userdata. by rewrite Hflags.
  - assert (Hpre : inner ∉ Combine.plugins_of pre).
    { intros H. apply Hnot. apply elem_of_plugins_of in H.
      apply elem_of_plugins_of. set_solver. }
    assert (Hpost : inner ∉ Combine.plugins_of post).
    { intros H. apply Hnot. apply elem_of_plugins_of in H.
      apply elem_of_plugins_of. set_solver. }
    unfold Combine.concatenate_values. run.
    destruct (assign_keeps inner outer (Some inner_text) s) as (_ & _ & _ & _ & ->).
    rewrite Hout, concat_spec.
    change ("" +:+ ?x) with x.
    rewrite !map_app, !foldr_append_app.
    change (map ?f (?x :: ?l)) with (f x :: map f l).
    change (foldr ?f ?e (?x :: ?l)) with (f x (foldr f e l)).
    change (contribution ?s (Obj ?r)) with (default "" (value (objs s r))).
    rewrite value_assign.
    by rewrite (contribution_assign _ _ _ _ Hpre), (contribution_assign _ _ _ _ Hpost).
Qed.

(** *** Alter *)

(** The object [Alter] makes: it takes the name of the source and the
    value the source has at that moment, untransformed. *)
Lemma Alter_new_obj (plugin : ref) (f : string → outcome (option string))
    (s : state) :
  ∃ s', Alter.new plugin f s = (Ok (next s), s') ∧
        objs s' (next s) =
          {| name := name (objs s plugin); plugins := [plugin];
             value := value (objs s plugin);
             flags := Base.DEPENDS_ON_OTHER_PLUGINS;
             function := Some F_process_value; inst := IsAlter f |} ∧
        next s' = S (next s) ∧
        ∀ r, r ≠ next s → objs s' r = objs s r.
Proof.
  eexists. split; [reflexivity|]. cbn. rewrite !decide_True by done.
  repeat split. intros r Hr. by rewrite !decide_False.
Qed.

Lemma Alter_resolve (self source : ref) (f : string → outcome (option string))
    (v : string) (v' : option string) (userdata : gmap string string) (s : state) :
  inst (objs s self) = IsAlter f →
  plugins (objs s self) = [source] →
  function (objs s self) = Some F_process_value →
  flags (objs s self) = Base.DEPENDS_ON_OTHER_PLUGINS →
  value (objs s source) = Some v → v ≠ "" → f v = Ok v' →
  Plugin.get_value self userdata s = (Ok v', assign self v' (assign self v' s)).
Proof.
  intros Hinst Hpl Hfun Hflags Hv Hne Hf.
  rewrite get_value_plain.
  - rewrite Hfun. cbn.
    rewrite (process_value_nonempty self source [] f v s Hinst Hpl Hv Hne).
    by rewrite Hf.
  - unfold Base.needs_response. by rewrite Hflags.
  - unfold Base.needs_userdata. by rewrite Hflags.
Qed.

Lemma append_nonempty (a v : string) : v ≠ "" → a +:+ v ≠ "".
Proof. intros Hv. destruct a; [done|]. discriminate. Qed.

Lemma append_nonempty_l (v b : string) : v ≠ "" → v +:+ b ≠ "".
Proof. intros Hv. destruct v; [done|]. discriminate. Qed.

(** X15: Alter plugins chain, once each is resolved after its source:
    [Alter.append(Alter.prepend(n, a), b)] gives [a + v + b] for a source
    with the non-empty value [v].  When the inner plugin has not been
    resolved, the outer one sees the value the inner plugin took from the
    source at construction, which is [v] untransformed, and gives
    [v + b]. *)
Theorem Alter_chain (n : ref) (a b v : string) (userdata : gmap string string)
    (s : state) :
  n < next s →
  value (objs s n) = Some v →
  v ≠ "" →
  fst ((inner ← Alter.prepend n a;
        outer ← Alter.append inner b;
        Plugin.get_value inner userdata;;
        Plugin.get_value outer userdata) s) = Ok (Some (a +:+ v +:+ b)) ∧
  fst ((inner ← Alter.prepend n a;
        outer ← Alter.append inner b;
        Plugin.get_value outer userdata) s) = Ok (Some (v +:+ b)).
Proof.
  intros Hn Hv Hne.
  unfold Alter.prepend, Alter.append.
  destruct (Alter_new_obj n (fun v => Ok (Some (a +:+ v))) s)
    as (s1 & Hnew1 & Hobj1 & Hnext1 & Hframe1).
  destruct (Alter_new_obj (next s) (fun v => Ok (Some (v +:+ b))) s1)
    as (s2 & Hnew2 & Hobj2 & Hnext2 & Hframe2).
  rewrite Hnext1 in Hnew2, Hobj2, Hframe2.
  assert (Hinner2 : objs s2 (next s) = objs s1 (next s)) by (apply Hframe2; lia).
  assert (Hn2 : objs s2 n = objs s n).
  { rewrite Hframe2 by lia. apply Hframe1. lia. }
  cbv beta iota delta [mbind M_bind bind]. rewrite Hnew1, Hnew2. split.
  - rewrite (Alter_resolve (next s) n (fun v => Ok (Some (a +:+ v))) v
               (Some (a +:+ v)) userdata s2);
      [|by rewrite Hinner2, Hobj1..|by rewrite Hn2|done|done].
    set (s3 := assign (next s) (Some (a +:+ v)) (assign (next s) (Some (a +:+ v)) s2)).
    assert (Houter3 : objs s3 (S (next s)) = objs s2 (S (next s))).
    { unfold s3. rewrite !objs_assign_ne by lia. done. }
    rewrite (Alter_resolve (S (next s)) (next s) (fun v => Ok (Some (v +:+ b)))
               (a +:+ v) (Some ((a +:+ v) +:+ b)) userdata s3);
      [|by rewrite Houter3, Hobj2..| |by apply append_nonempty|done].
    + cbn. by rewrite append_assoc.
    + unfold s3. by rewrite value_assign.
  - rewrite (Alter_resolve (S (next s)) (next s) (fun v => Ok (Some (v +:+ b)))
               v (Some (v +:+ b)) userdata s2);
      [done|by rewrite Hobj2..| |done|done].
    by rewrite Hinner2, Hobj1.
Qed.

(** *** Header.bearerauth *)

Lemma Header_bearerauth_obj (token : ref) (s : state) :
  ∃ s1, Header.bearerauth token s = (Ok (next s), s1) ∧
        name (objs s1 (next s)) = "Authorization" ∧
        function (objs s1 (next s)) = Some (F_bearerauth token) ∧
        flags (objs s1 (next s)) = 0%Z ∧
        value (objs s1 (next s)) = None.
Proof.
  eexists. split; [reflexivity|]. cbn. by rewrite !decide_True.
Qed.

(** X16: the Header made by [bearerauth] is named Authorization and reads
    the token plugin when it is resolved: [get_value] stores and returns
    ["Bearer "] followed by the value the token has then, and [None] when
    the token has no value or the empty string.  For a non-empty token
    this is the string a Combine of ["Bearer "] and the token
    concatenates; for an empty one the Combine gives ["Bearer "] where the
    header gives [None]. *)
Theorem bearerauth_resolution (token : ref) (s : state) :
  ∃ s1,
    Header.bearerauth token s = (Ok (next s), s1) ∧
    name (objs s1 (next s)) = "Authorization" ∧
    ∀ s2 userdata,
      function (objs s2 (next s)) = function (objs s1 (next s)) →
      flags (objs s2 (next s)) = flags (objs s1 (next s)) →
      let bearer :=
        match value (objs s2 token) with
        | Some v => if String.eqb v "" then None else Some ("Bearer " +:+ v)
        | None => None
        end in
      Plugin.get_value (next s) userdata s2 =
        (Ok bearer, assign (next s) bearer s2) ∧
      fst (Combine.concat "" [Lit "Bearer "; Obj token] s2) =
        Ok (default "Bearer " bearer).
Proof.
  destruct (Header_bearerauth_obj token s) as (s1 & Hnew & Hname & Hf & Hfl & _).
  exists s1. split; [done|]. split; [done|].
  intros s2 userdata Hfun Hflags. rewrite Hf in Hfun. rewrite Hfl in Hflags.
  split.
  - rewrite get_value_plain.
    + rewrite Hfun. cbn. unfold Lambda.bearerauth. run.
      destruct (value (objs s2 token)) as [v|]; [|done]. cbn.
      by destruct (String.eqb v "").
    + unfold Base.needs_response. by rewrite Hflags.
    + unfold Base.needs_userdata. by rewrite Hflags.
  - rewrite concat_spec. cbn.
    destruct (value (objs s2 token)) as [v|]; [|done]. cbn.
    destruct (String.eqb_spec v "") as [->|]; cbn; [done|].
    change ("" +:+ ?x) with x. by rewrite <- append_assoc, append_nil_r.
Qed.

(** *** Cookie and Header *)

(** The lookup in the jar looks at the cookies of that name only. *)
Lemma find_no_duplicates_filter (nm : string) (toReturn : option string)
    (jar : list (string * option string)) :
  Cookie.find_no_duplicates nm toReturn jar =
    Cookie.find_no_duplicates nm toReturn (filter (λ c, c.1 = nm) jar).
Proof.
  revert toReturn. induction jar as [|[n v] jar IH]; intros toReturn; [done|].
  rewrite filter_cons. cbn. destruct (String.eqb_spec n nm) as [->|Hne].
  - rewrite decide_True by done. cbn. rewrite String.eqb_refl.
    destruct toReturn; [done|]. apply IH.
  - rewrite decide_False by done. apply IH.
Qed.

(** It raises nothing but CookieConflictError, and only at a second cookie
    of that name. *)
Lemma find_no_duplicates_raises (nm : string) (toReturn : option string)
    (jar : list (string * option string)) (e : exn) :
  Cookie.find_no_duplicates nm toReturn jar = Raise e →
  e = CookieConflictError ∧
  match toReturn with Some _ => 1 | None => 2 end
    ≤ length (filter (λ c, c.1 = nm) jar).
Proof.
  revert toReturn. induction jar as [|[n v] jar IH]; intros toReturn; [done|].
  rewrite filter_cons. cbn. destruct (String.eqb_spec n nm) as [->|Hne].
  - rewrite decide_True by done. cbn. destruct toReturn as [t|].
    + intros [= <-]. split; [done|lia].
    + intros Hrest. destruct (IH _ Hrest) as [-> Hlen]. split; [done|].
      destruct v; lia.
  - rewrite decide_False by done. apply IH.
Qed.

(** X17: resolving a response-driven Header against a response does not
    raise; resolving a Cookie raises nothing but CookieConflictError, and
    only when the jar of the response holds two cookies of its name: then
    nothing changes.  Otherwise a non-empty cookie or header of that name
    replaces the value of the plugin; when there is none, or one without
    value or with the empty string, the plugin keeps the value it has,
    for instance the one it was constructed with.  The header is looked
    up by its lower-case name, and the only cookie of a name is found
    wherever it is in the jar.  No other plugin changes. *)
Theorem artifact_resolution (self : ref) (r : Response)
    (lookup : outcome (option string)) (s : state) :
  (function (objs s self) = Some F_Cookie_extract_from_response ∧
   lookup = Cookie.jar_get (name (objs s self)) (cookies r)) ∨
  (function (objs s self) = Some F_Header_extract_from_response ∧
   lookup = Ok (headers r !! Py.lower (name (objs s self)))) →
  match lookup with
  | Ok found =>
      ∃ s',
        Plugin.extract_value_from_response self (Some r) s = (Ok tt, s') ∧
        value (objs s' self) =
          (if Py.truthy found then found else value (objs s self)) ∧
        ∀ r', r' ≠ self → objs s' r' = objs s r'
  | Raise e =>
      Plugin.extract_value_from_response self (Some r) s = (Raise e, s) ∧
      e = CookieConflictError ∧
      2 ≤ length (filter (λ c, c.1 = name (objs s self)) (cookies r))
  end ∧
  ∀ nm v, filter (λ c, c.1 = nm) (cookies r) = [(nm, v)] →
          Cookie.jar_get nm (cookies r) = Ok (nonempty v).
Proof.
  intros Hkind. split.
  - rewrite extract_value_from_response_unfold.
    assert (Hcall : Plugin.call self (function (objs s self))
                      [Plugin.arg_of_response (Some r)] s = (lookup, s)).
    { destruct Hkind as [[-> ->] | [-> ->]]; cbn.
      - unfold Cookie.extract_from_response. by run.
      - unfold Header.extract_from_response. by run. }
    rewrite Hcall. destruct lookup as [found|e].
    + destruct (Py.truthy found); eexists; (split; [done|]).
      * rewrite objs_add_log, value_assign. split; [done|].
        intros r' Hr. by rewrite objs_add_log, objs_assign_ne.
      * rewrite objs_add_log. split; [done|].
        intros r' Hr. by rewrite objs_add_log.
    + split; [done|]. destruct Hkind as [[_ Hjar] | [_ Hhdr]]; [|done].
      unfold Cookie.jar_get in Hjar.
      destruct (Cookie.find_no_duplicates _ None _) as [t|e'] eqn:Hfind; [done|].
      injection Hjar as ->. by apply (find_no_duplicates_raises _ None).
  - intros nm v Hone. unfold Cookie.jar_get.
    rewrite find_no_duplicates_filter, Hone. cbn. by rewrite String.eqb_refl.
Qed.

(** X18: a Cookie or a Header constructed with flags 0 and no function is
    static: [get_value] returns the value the object holds, the one given
    to the constructor until somebody assigns another, and changes
    nothing else; resolving it against a response raises TypeError, since
    its function takes no argument. *)
Theorem static_artifact (mk : string → option string → option func → Z → M ref)
    (nm : string) (v : option string) (s : state) :
  mk = Cookie.new ∨ mk = Header.new →
  ∃ s1,
    mk nm v None 0%Z s = (Ok (next s), s1) ∧
    value (objs s1 (next s)) = v ∧
    ∀ s2 userdata response,
      function (objs s2 (next s)) = function (objs s1 (next s)) →
      flags (objs s2 (next s)) = flags (objs s1 (next s)) →
      Plugin.get_value (next s) userdata s2 =
        (Ok (value (objs s2 (next s))),
         assign (next s) (value (objs s2 (next s))) s2) ∧
      Plugin.extract_value_from_response (next s) response s2 =
        (Raise TypeError, s2).
Proof.
  intros [-> | ->]; eexists; (split; [reflexivity|]); cbn;
    rewrite !decide_True by done; cbn; (split; [done|]);
    intros s2 userdata response Hfun Hflags; split.
  1, 3: rewrite get_value_plain;
    [ by rewrite Hfun
    | unfold Base.needs_response; by rewrite Hflags
    | unfold Base.needs_userdata; by rewrite Hflags ].
  all: rewrite extract_value_from_response_unfold, Hfun; by destruct response.
Qed.

End More_composition.

(** *** Header.basicauth *)

From Stdlib Require Import ZifyNat.

Section Base64.

Lemma b64_char_index (i : nat) :
  i < 64 → Codec.b64_index (Codec.b64_char i) = i ∧ Codec.b64_char i ≠ Codec.pad.
Proof.
  intros Hi.
  do 64 (destruct i as [|i]; [by vm_compute|]). lia.
Qed.

Ltac byte_eq b :=
  transitivity (ascii_of_nat (nat_of_ascii b));
  [f_equal; lia | apply ascii_nat_embedding].

Lemma nat_of_ascii_lt (b : ascii) : nat_of_ascii b < 256.
Proof. apply nat_ascii_bounded. Qed.

Lemma b64_group (b1 b2 b3 : ascii) (rest : list ascii) :
  Codec.b64decode (Codec.b64encode (b1 :: b2 :: b3 :: rest)) =
    b1 :: b2 :: b3 :: Codec.b64decode (Codec.b64encode rest).
Proof.
  pose proof (nat_of_ascii_lt b1) as H1.
  pose proof (nat_of_ascii_lt b2) as H2.
  pose proof (nat_of_ascii_lt b3) as H3.
  change (Codec.b64encode (b1 :: b2 :: b3 :: rest)) with
    (Codec.b64_char (nat_of_ascii b1 / 4)
       :: Codec.b64_char (nat_of_ascii b1 mod 4 * 16 + nat_of_ascii b2 / 16)
       :: Codec.b64_char (nat_of_ascii b2 mod 16 * 4 + nat_of_ascii b3 / 64)
       :: Codec.b64_char (nat_of_ascii b3 mod 64)
       :: Codec.b64encode rest).
  destruct (b64_char_index (nat_of_ascii b1 / 4)) as [E1 _]; [lia|].
  destruct (b64_char_index (nat_of_ascii b1 mod 4 * 16 + nat_of_ascii b2 / 16))
    as [E2 _]; [lia|].
  destruct (b64_char_index (nat_of_ascii b2 mod 16 * 4 + nat_of_ascii b3 / 64))
    as [E3 P3]; [lia|].
  destruct (b64_char_index (nat_of_ascii b3 mod 64)) as [E4 P4]; [lia|].
  cbn [Codec.b64decode].
  apply Ascii.eqb_neq in P3, P4. rewrite P3, P4, E1, E2, E3, E4.
  f_equal; [|f_equal; [|f_equal]].
  - byte_eq b1.
  - byte_eq b2.
  - byte_eq b3.
Qed.

Lemma b64_one (b1 : ascii) : Codec.b64decode (Codec.b64encode [b1]) = [b1].
Proof.
  pose proof (nat_of_ascii_lt b1) as H1.
  change (Codec.b64encode [b1]) with
    [Codec.b64_char (nat_of_ascii b1 / 4);
     Codec.b64_char (nat_of_ascii b1 mod 4 * 16); Codec.pad; Codec.pad].
  destruct (b64_char_index (nat_of_ascii b1 / 4)) as [E1 _]; [lia|].
  destruct (b64_char_index (nat_of_ascii b1 mod 4 * 16)) as [E2 _]; [lia|].
  cbn [Codec.b64decode]. rewrite Ascii.eqb_refl, E1, E2.
  f_equal. byte_eq b1.
Qed.

Lemma b64_two (b1 b2 : ascii) :
  Codec.b64decode (Codec.b64encode [b1; b2]) = [b1; b2].
Proof.
  pose proof (nat_of_ascii_lt b1) as H1.
  pose proof (nat_of_ascii_lt b2) as H2.
  change (Codec.b64encode [b1; b2]) with
    [Codec.b64_char (nat_of_ascii b1 / 4);
     Codec.b64_char (nat_of_ascii b1 mod 4 * 16 + nat_of_ascii b2 / 16);
     Codec.b64_char (nat_of_ascii b2 mod 16 * 4); Codec.pad].
  destruct (b64_char_index (nat_of_ascii b1 / 4)) as [E1 _]; [lia|].
  destruct (b64_char_index (nat_of_ascii b1 mod 4 * 16 + nat_of_ascii b2 / 16))
    as [E2 _]; [lia|].
  destruct (b64_char_index (nat_of_ascii b2 mod 16 * 4)) as [E3 P3]; [lia|].
  cbn [Codec.b64decode].
  apply Ascii.eqb_neq in P3. rewrite P3, Ascii.eqb_refl, E1, E2, E3.
  f_equal; [|f_equal].
  - byte_eq b1.
  - byte_eq b2.
Qed.

(** Decoding what [b64encode] wrote gives the bytes back. *)
Lemma b64decode_encode (bs : list ascii) :
  Codec.b64decode (Codec.b64encode bs) = bs.
Proof.
  assert (H : Codec.b64decode (Codec.b64encode bs) = bs ∧
              (∀ a, Codec.b64decode (Codec.b64encode (a :: bs)) = a :: bs) ∧
              (∀ a b, Codec.b64decode (Codec.b64encode (a :: b :: bs)) = a :: b :: bs)).
  { induction bs as [|x bs (IH0 & IH1 & IH2)].
    - split; [done|]. split; [apply b64_one|apply b64_two].
    - split; [apply IH1|]. split; [intros a; apply IH2|].
      intros a b. rewrite b64_group. by rewrite IH0. }
  apply H.
Qed.

Lemma utf8_decode_encode (s : string) : Codec.decode (Codec.encode s) = s.
Proof.
  induction s as [|c s IH]; [done|].
  pose proof (nat_of_ascii_lt c) as Hc.
  cbn [Codec.encode]. unfold Codec.utf8_char.
  destruct (nat_of_ascii c <? 128) eqn:Hlt.
  - cbn [app Codec.decode]. by rewrite Hlt, IH.
  - apply Nat.ltb_ge in Hlt.
    cbn [app Codec.decode].
    rewrite !nat_ascii_embedding by lia.
    assert (Hge : (192 + nat_of_ascii c / 64 <? 128) = false)
      by (apply Nat.ltb_ge; lia).
    rewrite Hge, IH. f_equal.
    byte_eq c.
Qed.

End Base64.

Lemma append_cons (c : ascii) (u s : string) :
  String c u +:+ s = String c (u +:+ s).
Proof. reflexivity. Qed.

Lemma append_nil_l (s : string) : "" +:+ s = s.
Proof. reflexivity. Qed.

(** The credentials are separated at the first colon. *)
Lemma split_at_colon (u u' p p' : string) :
  ":"%char ∉ String.list_ascii_of_string u →
  ":"%char ∉ String.list_ascii_of_string u' →
  u +:+ ":" +:+ p = u' +:+ ":" +:+ p' →
  u = u' ∧ p = p'.
Proof.
  revert u'. induction u as [|c u IH]; intros [|c' u'] Hu Hu';
    rewrite ?append_cons, ?append_nil_l.
  - by intros [= ->].
  - intros [= <- _]. exfalso. apply Hu'. cbn. by left.
  - intros [= -> _]. exfalso. apply Hu. cbn. by left.
  - intros [= -> Heq]. destruct (IH u') as [-> ->]; [| |done|done].
    + intros H. apply Hu. cbn. by right.
    + intros H. apply Hu'. cbn. by right.
Qed.

Lemma basic_inj (u u' p p' : string) :
  Codec.basic u p = Codec.basic u' p' →
  u +:+ ":" +:+ p = u' +:+ ":" +:+ p'.
Proof.
  unfold Codec.basic. intros H. apply (inj (String.append "Basic ")) in H.
  apply (f_equal String.list_ascii_of_string) in H.
  rewrite !String.list_ascii_of_string_of_list_ascii in H.
  apply (f_equal Codec.b64decode) in H. rewrite !b64decode_encode in H.
  apply (f_equal Codec.decode) in H. by rewrite !utf8_decode_encode in H.
Qed.

(** X19: the value [basicauth] gives the header tells the credentials
    apart: two usernames without colon and two passwords give the same
    value only when they are the same.  A colon in the username is not
    told from one in the password. *)
Theorem basicauth_injective (u u' p p' : string) :
  (":"%char ∉ String.list_ascii_of_string u →
   ":"%char ∉ String.list_ascii_of_string u' →
   Codec.basic u p = Codec.basic u' p' →
   u = u' ∧ p = p') ∧
  ∀ q, Codec.basic (u +:+ ":" +:+ p) q = Codec.basic u (p +:+ ":" +:+ q).
Proof.
  split.
  - intros Hu Hu' Heq. apply (split_at_colon u u' p p' Hu Hu').
    by apply basic_inj.
  - intros q. unfold Codec.basic. by rewrite !append_assoc.
Qed.

Section More_artifacts.

Context {L : Libs}.

Lemma Auth_basicauth_obj (username password : string) (s : state) :
  ∃ s1, Auth.basicauth username password s = (Ok (next s), s1) ∧
        name (objs s1 (next s)) = "Authorization" ∧
        value (objs s1 (next s)) = Some (Codec.basic username password) ∧
        function (objs s1 (next s)) = Some F_Header_extract_from_response ∧
        flags (objs s1 (next s)) = Base.NEEDS_RESPONSE.
Proof.
  eexists. split; [reflexivity|]. cbn. by rewrite !decide_True.
Qed.

(** X20: the Header [basicauth] makes is named Authorization and holds
    ["Basic "] and the encoded credentials.  It carries NEEDS_RESPONSE:
    [get_value] returns that value whatever the user data and changes
    nothing, and resolving it against a response never raises: a
    non-empty Authorization header of the response replaces the
    credentials, otherwise they stay. *)
Theorem basicauth_resolution (username password : string) (s : state) :
  ∃ s1,
    Auth.basicauth username password s = (Ok (next s), s1) ∧
    name (objs s1 (next s)) = "Authorization" ∧
    (∀ userdata,
       Plugin.get_value (next s) userdata s1 =
         (Ok (Some (Codec.basic username password)), s1)) ∧
    ∀ r, ∃ s2,
      Plugin.extract_value_from_response (next s) (Some r) s1 = (Ok tt, s2) ∧
      value (objs s2 (next s)) =
        if Py.truthy (headers r !! "authorization")
        then headers r !! "authorization"
        else Some (Codec.basic username password).
Proof.
  destruct (Auth_basicauth_obj username password s)
    as (s1 & Hnew & Hname & Hval & Hfun & Hflags).
  exists s1. split; [done|]. split; [done|]. split.
  - intros userdata. rewrite get_value_needs_response_flag.
    + by rewrite Hval.
    + unfold Base.needs_response. by rewrite Hflags.
  - intros r. rewrite extract_value_from_response_unfold, Hfun. cbn.
    unfold Header.extract_from_response. run. rewrite Hname.
    change (Py.lower "Authorization") with "authorization".
    destruct (Py.truthy (headers r !! "authorization")); eexists; (split; [done|]).
    + by rewrite objs_add_log, value_assign.
    + by rewrite objs_add_log, Hval.
Qed.

End More_artifacts.

(** *** Prompt *)

Lemma Prompt_loop_outcome (lines : list string) (self : ref)
    (out : list string) (s s' : state) (res : Prompt.result) (c' : Prompt.console) :
  Prompt.loop self lines out s = (res, s', c') →
  (∀ r, r ≠ self → objs s' r = objs s r) ∧
  match res with
  | Prompt.Entered v =>
      v ≠ "" ∧ value (objs s' self) = Some v ∧
      ∃ k, lines = replicate k "" ++ v :: Prompt.stdin c' ∧
           Prompt.stdout c' =
             out ++ concat (replicate (S k) (Prompt.round (name (objs s self))))
  | Prompt.EOFError =>
      (∀ line, line ∈ lines → line = "") ∧ Prompt.stdin c' = [] ∧
      value (objs s' self) =
        match lines with [] => value (objs s self) | _ => Some "" end ∧
      Prompt.stdout c' =
        out ++ concat (replicate (S (length lines))
                         (Prompt.round (name (objs s self))))
  end.
Proof.
  revert out s. induction lines as [|line rest IH]; intros out s; cbn.
  - intros [= <- <- <-]. split; [done|]. cbn. rewrite ?app_nil_r.
    split; [by intros line Hin%elem_of_nil|]. done.
  - destruct (String.eqb_spec line "") as [->|Hne]; cbn.
    + intros Hloop. destruct (IH _ _ Hloop) as [Hframe Hres]. split.
      * intros r Hr. rewrite Hframe by done. by apply objs_assign_ne.
      * rewrite name_assign in Hres. destruct res as [v|].
        -- destruct Hres as (Hv & Hval & k & -> & Hout).
           split; [done|]. split; [done|]. exists (S k). split; [done|].
           rewrite Hout. by rewrite <- app_assoc.
        -- destruct Hres as (Hall & Hin & Hval & Hout).
           split; [|split; [done|split]].
           ++ intros l [->|Hl]%elem_of_cons; [done|]. by apply Hall.
           ++ rewrite Hval. destruct rest; [|done]. apply value_assign.
           ++ rewrite Hout. by rewrite <- app_assoc.
    + intros [= <- <- <-]. split.
      * intros r Hr. by apply objs_assign_ne.
      * split; [done|]. split; [apply value_assign|].
        exists 0. split; [done|]. cbn. by rewrite ?app_nil_r.
Qed.

(** X21: [get_user_prompt] clears the value first.  When it returns, the
    value it returns is not empty, it is the value the plugin holds, and
    it is the first non-empty line of the input: the lines read before it
    were all empty, and the lines after it are left unread.  Before each
    line it reads, and nowhere else, it writes the notice and then the
    prompt, the name of the plugin followed by [" = "].  When the input
    ends first, every line was empty, the notice and the prompt were
    written once more, EOFError is raised, and the value the plugin had
    before is lost.  No other plugin changes. *)
Theorem Prompt_outcome (self : ref) (c c' : Prompt.console) (s s' : state)
    (res : Prompt.result) :
  Prompt.get_user_prompt self c s = (res, s', c') →
  (∀ r, r ≠ self → objs s' r = objs s r) ∧
  match res with
  | Prompt.Entered v =>
      v ≠ "" ∧ value (objs s' self) = Some v ∧
      ∃ k, Prompt.stdin c = replicate k "" ++ v :: Prompt.stdin c' ∧
           Prompt.stdout c' =
             Prompt.stdout c ++
             concat (replicate (S k)
                       ["Please provide the input value";
                        name (objs s self) +:+ " = "])
  | Prompt.EOFError =>
      (∀ line, line ∈ Prompt.stdin c → line = "") ∧ Prompt.stdin c' = [] ∧
      value (objs s' self) =
        match Prompt.stdin c with [] => None | _ => Some "" end ∧
      Prompt.stdout c' =
        Prompt.stdout c ++
        concat (replicate (S (length (Prompt.stdin c)))
                  ["Please provide the input value";
                   name (objs s self) +:+ " = "])
  end.
Proof.
  unfold Prompt.get_user_prompt. intros Hloop.
  destruct (Prompt_loop_outcome _ _ _ _ _ _ _ Hloop) as [Hframe Hres].
  rewrite name_assign in Hres. split.
  - intros r Hr. rewrite Hframe by done. by apply objs_assign_ne.
  - destruct res as [v|]; [done|].
    destruct Hres as (Hall & Hin & Hval & Hout).
    split; [done|]. split; [done|]. split; [|done].
    rewrite Hval. destruct (Prompt.stdin c); [apply value_assign|done].
Qed.

Section More_json_log.

Context {L : Libs}.

(** The loop logs nothing when it ends valid, and one warning when it
    breaks. *)
Lemma walk_logs (path : list string) (temp : JsonData.t) :
  ∃ res l,
    (∀ s, Json.walk temp path s = (res, add_logs l s)) ∧
    match res with
    | Ok (true, _) => l = []
    | Ok (false, _) => ∃ w, l = [w] ∧ log_level w = WARNING
    | Raise _ => True
    end.
Proof.
  revert temp. induction path as [|item rest IH]; intros temp.
  - by exists (Ok (true, temp)), [].
  - cbn. destruct (Py.startswith item "[").
    + destruct (Py.int _) as [z|]; [|by exists (Raise ValueError), []].
      destruct (JsonData.len temp) as [n|]; [|by exists (Raise TypeError), []].
      destruct (z <? n)%Z.
      * run. destruct (Json.getitem_int temp z) as [t'|e].
        -- apply IH.
        -- by exists (Raise e), [].
      * exists (Ok (false, temp)), [index_not_found]. split; [done|]. by eexists.
    + run. destruct (Json.contains temp item) as [[|]|e].
      * destruct (Json.getitem_str temp item) as [t'|e].
        -- apply IH.
        -- by exists (Raise e), [].
      * exists (Ok (false, temp)), [key_not_found item]. split; [done|]. by eexists.
      * by exists (Raise e), [].
Qed.

(** X22: whenever [extract_json_field] returns, it has logged exactly one
    record: a debug record when it returns a string, a warning when it
    returns [None]. *)
Theorem Json_logs_one_record (self : ref) (t : string) (s s1 : state)
    (o : option string) :
  Json.extract_json_field self (ArgText t) s = (Ok o, s1) →
  ∃ w, log s1 = log s ++ [w] ∧
       log_level w = match o with Some _ => DEBUG | None => WARNING end.
Proof.
  unfold Json.extract_json_field. destruct (json_loads t) as [data|]; [|done].
  run. destruct (inst (objs s self)) as [| | |extract| | | | | |]; try done.
  destruct (walk_logs (parse_json_filter extract) data) as (res & l & Hwalk & Hl).
  rewrite Hwalk.
  destruct res as [[[|] temp]|e]; cbn; [| |done].
  - subst l. intros [= <- <-]. eexists.
    rewrite objs_add_log, value_assign, log_add_log, log_assign. by split.
  - destruct Hl as (w & -> & Hw). intros [= <- <-]. exists w.
    rewrite value_assign, log_assign. split; [|done].
    change (add_logs [w] s) with (add_log w s). apply log_add_log.
Qed.

End More_json_log.

(** *** The hypotheses of the further properties hold at concrete inputs *)

Section More_examples.

#[local] Existing Instance Demo.libs.
#[local] Transparent assign add_log.

Lemma Plugin_without_function_witness :
  objs Demo2.with_plugin 0 =
    Base.init "username" None Base.NEEDS_USERDATA None IsPlugin ∧
  Plugin.get_value 0 ∅ Demo2.with_plugin = (Ok None, assign 0 None Demo2.with_plugin) ∧
  Plugin.get_value 0 Demo2.credentials Demo2.with_plugin =
    (Ok (Some "admin"),
     assign 0 (Some "admin") (assign 0 (Some "admin") Demo2.with_plugin)).
Proof.
  split; [reflexivity|]. split.
  - rewrite (Plugin_without_function 0 "username" Base.NEEDS_USERDATA None ∅
               Demo2.with_plugin) by reflexivity.
    reflexivity.
  - rewrite (Plugin_without_function 0 "username" Base.NEEDS_USERDATA None
               Demo2.credentials Demo2.with_plugin) by reflexivity.
    reflexivity.
Defined.

Lemma Regex_without_groups_raises_witness :
  @re_search Demo2.libs "abc" "xabcx" = re_match [] ∧
  @Plugin.extract_value_from_response Demo2.libs 0
    (Some (Demo.response "xabcx")) Demo2.with_plain_regex =
    (Raise IndexError, Demo2.with_plain_regex).
Proof.
  split; [reflexivity|].
  apply (@Regex_without_groups_raises Demo2.libs 0 "abc" 0
           (Demo.response "xabcx") Demo2.with_plain_regex); reflexivity.
Defined.

Lemma Regex_match_overwrites_witness :
  Py.index [Some "abc"] 0 = Some (Some "abc") ∧
  ∃ s',
    Plugin.extract_value_from_response 0 (Some (Demo.response "token=abc"))
      Demo.with_regex = (Ok tt, s') ∧
    value (objs s' 0) = Some "abc".
Proof.
  split; [reflexivity|].
  destruct (Regex_match_overwrites 0 "token=(\w+)" 0 (Demo.response "token=abc")
              [Some "abc"] (Some "abc") Demo.with_regex)
    as (s' & Hres & Hval & _); [reflexivity..|].
  by exists s'.
Defined.

Lemma Regex_extract_last_group_witness :
  last [Some "abc"] = Some (Some "abc") ∧
  fst (Regex.extract_regex 0 (ArgResponse (Demo.response "token=abc"))
         Demo2.with_last_regex) = Ok (Some "abc").
Proof.
  split; [reflexivity|].
  rewrite (Regex_extract_last_group 0 "token=(\w+)" (Demo.response "token=abc")
             [Some "abc"] (Some "abc") Demo2.with_last_regex) by reflexivity.
  reflexivity.
Defined.

Lemma Html_resolution_last_match_witness :
  inst (objs Demo2.with_html 0) = IsHtml "input" {[ "name" := "csrf" ]} "value" ∧
  ∃ s',
    Plugin.extract_value_from_response 0 (Some (Demo.response Demo.two_inputs))
      Demo2.with_html = (Ok tt, s') ∧
    value (objs s' 0) = Some "tok2".
Proof.
  split; [reflexivity|].
  destruct (Html_resolution_last_match 0 "input" {[ "name" := "csrf" ]} "value"
              (Demo.response Demo.two_inputs) Demo2.with_html)
    as (s' & Hres & Hval & _); [reflexivity..|].
  exists s'. split; [done|]. rewrite Hval. reflexivity.
Defined.

Lemma walk_negative_index_witness :
  Py.int (Py.strip "[]" "[-1]") = Some (-1)%Z ∧
  Json.walk (JsonData.JArray [JsonData.JInt 10; JsonData.JInt 20]) ["[-1]"] Demo.s0 =
    (Ok (true, JsonData.JInt 20), Demo.s0).
Proof.
  split; [reflexivity|].
  rewrite (walk_negative_index [JsonData.JInt 10; JsonData.JInt 20] "[-1]" (-1)
             (JsonData.JInt 20) [] Demo.s0); (reflexivity || (cbn; lia)).
Defined.

Lemma walk_index_string_witness :
  Py.int (Py.strip "[]" "[1]") = Some 1%Z ∧
  Json.walk (JsonData.JString "abc") ["[1]"] Demo.s0 =
    (Ok (true, JsonData.JString "b"), Demo.s0).
Proof.
  split; [reflexivity|].
  rewrite (walk_index_string "abc" "[1]" 1 "b"%char [] Demo.s0);
    (reflexivity || lia).
Defined.

Lemma walk_key_on_sequence_witness :
  Py.startswith "id" "[" = false ∧
  Json.walk (JsonData.JArray [JsonData.JString "id"]) ["id"] Demo.s0 =
    (Raise TypeError, Demo.s0) ∧
  Json.walk (JsonData.JString "name") ["id"] Demo.s0 =
    (Ok (false, JsonData.JString "name"), add_log (key_not_found "id") Demo.s0).
Proof.
  split; [reflexivity|]. split.
  - apply (proj1 (walk_key_on_sequence (JsonData.JArray [JsonData.JString "id"])
                    "id" [] Demo.s0 eq_refl) [JsonData.JString "id"] eq_refl).
  - apply (proj2 (walk_key_on_sequence (JsonData.JString "name")
                    "id" [] Demo.s0 eq_refl) "name" eq_refl).
Defined.

Lemma Json_extraction_forgets_witness :
  ∃ s1,
    Json.extract_json_field 0 (ArgText "{}") Demo.with_json = (Ok None, s1) ∧
    value (objs s1 0) = None ∧
    fst (Json.extract_json_field 0 (ArgText "{}")
           (assign 0 (Some "old") Demo.with_json)) = Ok None.
Proof.
  eexists. split; [reflexivity|].
  destruct (Json_extraction_forgets 0 "{}" (Some "old") Demo.with_json)
    as [Hsame Hstored].
  split; [by eapply Hstored|]. rewrite Hsame. reflexivity.
Defined.

Lemma Json_logs_one_record_witness :
  ∃ s1 w,
    Json.extract_json_field 0 (ArgText "{}") Demo.with_json = (Ok None, s1) ∧
    log s1 = log Demo.with_json ++ [w] ∧ log_level w = WARNING.
Proof.
  eexists. 
  assert (Hrun : Json.extract_json_field 0 (ArgText "{}") Demo.with_json =
                 (Ok None, snd (Json.extract_json_field 0 (ArgText "{}") Demo.with_json)))
    by reflexivity.
  destruct (Json_logs_one_record 0 "{}" Demo.with_json _ None Hrun)
    as (w & Hlog & Hlevel).
  exists w. split; [exact Hrun|]. by split.
Defined.

Lemma Combine_name_permutation_witness :
  [Lit "a"; Obj 0] ≡ₚ [Obj 0; Lit "a"] ∧
  name (objs (snd (Combine.new [Lit "a"; Obj 0] Demo.with_empty)) 1) =
  name (objs (snd (Combine.new [Obj 0; Lit "a"] Demo.with_empty)) 1).
Proof.
  assert (Hperm : [Lit "a"; Obj 0] ≡ₚ [Obj 0; Lit "a"]) by apply Permutation_swap.
  split; [exact Hperm|].
  exact (Combine_name_permutation _ _ Demo.with_empty Hperm).
Defined.

Lemma Combine_nested_witness :
  (1 ∉ Combine.plugins_of ([Lit "Authorization: "] ++ [Lit "Bearer "; Obj 0] ++ [])) ∧
  ∃ v s1,
    Plugin.get_value 1 ∅ Demo2.with_nested = (Ok v, s1) ∧
    Combine.concatenate_values 2 s1 =
      (Ok (Some "Authorization: Bearer abc123"), s1).
Proof.
  assert (Hnot : 1 ∉ Combine.plugins_of
                       ([Lit "Authorization: "] ++ [Lit "Bearer "; Obj 0] ++ [])).
  { cbn. intros Hin. apply elem_of_cons in Hin as [Hin|Hin]; [discriminate|].
    by apply elem_of_nil in Hin. }
  split; [exact Hnot|].
  exact (Combine_nested 1 2 [Lit "Bearer "; Obj 0] [Lit "Authorization: "] [] ∅
           Demo2.with_nested eq_refl eq_refl eq_refl eq_refl Hnot).
Defined.

Lemma Alter_chain_witness :
  value (objs Demo2.with_token 0) = Some "token" ∧
  fst ((inner ← Alter.prepend 0 "<";
        outer ← Alter.append inner ">";
        Plugin.get_value inner ∅;;
        Plugin.get_value outer ∅) Demo2.with_token) = Ok (Some "<token>") ∧
  fst ((inner ← Alter.prepend 0 "<";
        outer ← Alter.append inner ">";
        Plugin.get_value outer ∅) Demo2.with_token) = Ok (Some "token>").
Proof.
  split; [reflexivity|].
  apply (Alter_chain 0 "<" ">" "token" ∅ Demo2.with_token);
    [vm_compute; lia | reflexivity | discriminate].
Defined.

Lemma bearerauth_resolution_witness :
  ∃ s1,
    Header.bearerauth 0 Demo2.with_token = (Ok 1, s1) ∧
    Plugin.get_value 1 ∅ s1 =
      (Ok (Some "Bearer token"), assign 1 (Some "Bearer token") s1).
Proof.
  destruct (bearerauth_resolution 0 Demo2.with_token) as (s1 & Hnew & _ & Hget).
  exists s1. split; [exact Hnew|].
  injection Hnew as <-.
  exact (proj1 (Hget _ ∅ eq_refl eq_refl)).
Defined.

Lemma artifact_resolution_witness :
  function (objs Demo2.with_header 0) = Some F_Header_extract_from_response ∧
  (∃ s',
     Plugin.extract_value_from_response 0 (Some Demo2.served) Demo2.with_header =
       (Ok tt, s') ∧
     value (objs s' 0) = Some "nginx") ∧
  function (objs Demo.with_cookie 0) = Some F_Cookie_extract_from_response ∧
  (∃ s',
     Plugin.extract_value_from_response 0 (Some Demo2.served) Demo.with_cookie =
       (Ok tt, s') ∧
     value (objs s' 0) = Some "abc") ∧
  Plugin.extract_value_from_response 0 (Some Demo2.two_sids) Demo.with_cookie =
    (Raise CookieConflictError, Demo.with_cookie).
Proof.
  split; [reflexivity|]. split; [|split; [reflexivity|split]].
  - destruct (artifact_resolution 0 Demo2.served (Ok (Some "nginx"))
                Demo2.with_header) as [(s' & Hres & Hval & _) _].
    + right. split; reflexivity.
    + by exists s'.
  - destruct (artifact_resolution 0 Demo2.served (Ok (Some "abc"))
                Demo.with_cookie) as [(s' & Hres & Hval & _) _].
    + left. split; reflexivity.
    + by exists s'.
  - destruct (artifact_resolution 0 Demo2.two_sids (Raise CookieConflictError)
                Demo.with_cookie) as [(Hres & _) _].
    + left. split; reflexivity.
    + exact Hres.
Defined.

Lemma static_artifact_witness :
  ∃ s1,
    Cookie.new "sid" (Some "abc") None 0 Demo.s0 = (Ok 0, s1) ∧
    Plugin.get_value 0 ∅ s1 = (Ok (Some "abc"), assign 0 (Some "abc") s1) ∧
    Plugin.extract_value_from_response 0 (Some (Demo.response "")) s1 =
      (Raise TypeError, s1).
Proof.
  destruct (static_artifact Cookie.new "sid" (Some "abc") Demo.s0 (or_introl eq_refl))
    as (s1 & Hnew & Hval & Hres).
  exists s1. split; [exact Hnew|].
  destruct (Hres s1 ∅ (Some (Demo.response "")) eq_refl eq_refl) as [Hget Hraise].
  rewrite Hval in Hget. by split.
Defined.

Lemma basicauth_injective_witness :
  (":"%char ∉ String.list_ascii_of_string "user") ∧
  (Codec.basic "user" "pass" = Codec.basic "user" "pass" →
   "user" = "user" ∧ "pass" = "pass") ∧
  Codec.basic "user:pass" "word" = Codec.basic "user" "pass:word".
Proof.
  assert (Hu : ":"%char ∉ String.list_ascii_of_string "user").
  { cbn. intros Hin. repeat (apply elem_of_cons in Hin as [Hin|Hin]; [discriminate|]).
    by apply elem_of_nil in Hin. }
  split; [exact Hu|].
  destruct (basicauth_injective "user" "user" "pass" "pass") as [Hinj Hcolon].
  split; [exact (Hinj Hu Hu)|]. apply Hcolon.
Defined.

Lemma Prompt_outcome_witness :
  ∃ s' c',
    Prompt.get_user_prompt 0 Demo2.console Demo.with_empty =
      (Prompt.Entered "1234", s', c') ∧
    value (objs s' 0) = Some "1234" ∧
    Prompt.stdin c' = ["x"] ∧
    Prompt.stdout c' =
      ["Please provide the input value"; "n = ";
       "Please provide the input value"; "n = ";
       "Please provide the input value"; "n = "].
Proof.
  eexists _, _. split; [reflexivity|].
  destruct (Prompt_outcome 0 Demo2.console _ Demo.with_empty _ _ eq_refl)
    as (_ & _ & Hval & k & Hlines & Hout).
  split; [exact Hval|]. split; [reflexivity|].
  assert (Hk : k = 2).
  { destruct k as [|[|[|k]]]; try discriminate Hlines. reflexivity. }
  rewrite Hout, Hk. reflexivity.
Defined.

End More_examples.
